(** * A shallow embedding of the resource monitor (src/main.py)

    The development follows the source file top-down: the Python
    primitives the program relies on (number formatting, [int], [min],
    exceptions), the Tk canvas item store, the class [ResourceBubble]
    (colour ramps and [update]) and the parts of [ResourceMonitor] that
    route samples to the bubbles ([create_widgets], [get_gpu_stats],
    [update_bubbles]).

    Numbers.  Python floats are modelled as exact rationals ([Q]): the
    embedding keeps every comparison, division and truncation of the
    source, and abstracts from binary rounding, infinities and NaN. *)

From Stdlib Require Import ZArith QArith Qround Qabs String Ascii List Lia Lqa.
From stdpp Require Import base option gmap strings.

Local Open Scope Z_scope.
Local Open Scope string_scope.

(** ** Python primitives *)

Module Py.

(** Comparison [a < b] on numbers. *)
Definition ltb (a b : Q) : bool := negb (Qle_bool b a).

(** [min(a, b)] on two numbers: the builtin keeps its first argument
    unless the second one is strictly smaller. *)
Definition min (a b : Q) : Q := if ltb b a then b else a.

(** [int(x)]: truncation toward zero. *)
Definition int (x : Q) : Z :=
  if Qle_bool 0 x then Qfloor x else Qceiling x.

(** [x // y] restricted to the use the program makes of it. *)
Definition floordiv (x y : Q) : Q := inject_Z (Qfloor (x / y)).

(** [round(x)] of Python 3, nearest integer with ties to even; the
    program never calls it, the specification refers to it. *)
Definition round (x : Q) : Z :=
  let f := Qfloor x in
  match Qcompare (x - inject_Z f) (1 # 2) with
  | Lt => f
  | Gt => f + 1
  | Eq => if Z.even f then f else f + 1
  end.

(** Digits. *)
Definition digit_char (d : N) : ascii :=
  match d with
  | 0 => "0" | 1 => "1" | 2 => "2" | 3 => "3" | 4 => "4"
  | 5 => "5" | 6 => "6" | 7 => "7" | 8 => "8" | 9 => "9"
  | 10 => "a" | 11 => "b" | 12 => "c" | 13 => "d" | 14 => "e"
  | _ => "f"
  end%N%char.

Fixpoint to_digits (base : N) (fuel : nat) (n : N) (acc : string) : string :=
  match fuel with
  | O => acc
  | S fuel' =>
      let acc' := String (digit_char (n mod base)) acc in
      if (n / base =? 0)%N then acc'
      else to_digits base fuel' (n / base) acc'
  end.

(** The numeral of [n] in [base] (2 <= base <= 16), most significant
    digit first; [0] is written "0". *)
Definition numeral (base : N) (n : N) : string :=
  to_digits base (S (N.to_nat (N.log2 n))) n "".

Fixpoint zfill (width : nat) (s : string) : string :=
  match width with
  | O => s
  | S w => if Nat.ltb (String.length s) width then zfill w ("0" ++ s) else s
  end.

Definition sign (neg : bool) : string := if neg then "-" else "".

(** [str(n)] for an integer. *)
Definition str_int (n : Z) : string :=
  sign (n <? 0)%Z ++ numeral 10 (Z.abs_N n).

(** [f"{n:02x}"] for an integer: lower-case hexadecimal, zero-padded
    to two characters, the sign counting as one of them. *)
Definition format_02x (n : Z) : string :=
  if (n <? 0)%Z then "-" ++ zfill 1 (numeral 16 (Z.abs_N n))
  else zfill 2 (numeral 16 (Z.abs_N n)).

(** [f"{x:.0f}"]: the sign, then the magnitude rounded to the nearest
    integer, ties to even. *)
Definition format_0f (x : Q) : string :=
  sign (ltb x 0) ++ numeral 10 (Z.abs_N (round (Qabs x))).

(** A string of decimal digits, and nothing else. *)
Definition is_digit (a : ascii) : bool :=
  ((48 <=? N_of_ascii a) && (N_of_ascii a <=? 57))%N.

Fixpoint all_digits (s : string) : bool :=
  match s with
  | EmptyString => true
  | String a s' => is_digit a && all_digits s'
  end.

(** Values a call site can pass where a number is expected. *)
Inductive value : Type :=
| None_
| Num (x : Q).

(** Exceptions, by class.  [Exception_] stands for any other subclass
    of [Exception]; [BaseException_] for the classes that derive from
    [BaseException] only (KeyboardInterrupt, SystemExit, ...). *)
Inductive exc_class : Type :=
| TypeError
| ZeroDivisionError
| Exception_ (name : string)
| BaseException_ (name : string).

Record exc : Type := Exc { exc_type : exc_class; exc_str : string }.

(** [isinstance(e, Exception)]. *)
Definition is_Exception (e : exc) : bool :=
  match exc_type e with
  | BaseException_ _ => false
  | _ => true
  end.

(** *** Computations with state and exceptions

    A statement sequence runs on a state [St] and either completes
    with a value or raises; the state reached is kept in both cases,
    since assignments made before a raise are not rolled back. *)
Inductive result (A : Type) : Type :=
| Ok (a : A)
| Raise (e : exc).
Arguments Ok {A} a.
Arguments Raise {A} e.

Definition M (St A : Type) : Type := St -> result A * St.

Definition ret {St A} (a : A) : M St A := fun s => (Ok a, s).
Definition bind {St A B} (m : M St A) (k : A -> M St B) : M St B :=
  fun s => match m s with
           | (Ok a, s') => k a s'
           | (Raise e, s') => (Raise e, s')
           end.
Definition raise {St A} (e : exc) : M St A := fun s => (Raise e, s).
Definition get {St} : M St St := fun s => (Ok s, s).
Definition gets {St A} (f : St -> A) : M St A := fun s => (Ok (f s), s).
Definition modify {St} (f : St -> St) : M St unit := fun s => (Ok tt, f s).

(** [try: body except Exception as e: handler(e)]. *)
Definition try_except {St A} (body : M St A) (handler : exc -> M St A)
  : M St A :=
  fun s => match body s with
           | (Raise e, s') =>
               if is_Exception e then handler e s' else (Raise e, s')
           | r => r
           end.

(** Run a computation on a part of the state. *)
Definition zoom {St T A} (part : St -> T) (put : T -> St -> St)
    (m : M T A) : M St A :=
  fun s => let (r, t) := m (part s) in (r, put t s).

(** [min(v, m)] where [v] may be [None]: the comparison [m < v]
    raises for [None]. *)
Definition min_value {St} (v : value) (m : Q) : M St Q :=
  match v with
  | None_ =>
      raise (Exc TypeError
        "'<' not supported between instances of 'int' and 'NoneType'")
  | Num x => ret (min x m)
  end.

(** True division [a / b]. *)
Definition div {St} (a b : Q) : M St Q :=
  if Qeq_bool b 0 then raise (Exc ZeroDivisionError "division by zero")
  else ret (a / b)%Q.

End Py.

(** The notations [x ← m; k] and [m;; k] sequence statements. *)
Global Instance M_ret {St} : MRet (Py.M St) := @Py.ret St.
Global Instance M_bind {St} : MBind (Py.M St) :=
  fun A B k m => Py.bind m k.

(** ** The Tk canvas

    The canvas is the one object every bubble shares.  It is modelled
    as its item store: an item is created with the options the call
    gives, receives the next integer id, and is changed in place by
    [coords] and [itemconfig].  The store records the options as they
    are passed. *)

Module Tk.

Inductive item_type : Type := rectangle_item | text_item.

Record item : Type := Item {
  item_kind : item_type;
  item_coords : list Q;
  item_fill : string;
  item_outline : string;
  item_width : option Q;
  item_text : string;
  item_anchor : string;
  item_font : option (string * Z * string)
}.

Record Canvas : Type := MkCanvas {
  items : gmap nat item;
  next_id : nat
}.

(** [Canvas(...)]: a canvas without items; ids start at 1. *)
Definition new_canvas : Canvas := MkCanvas ∅ 1.

Definition create (it : item) : Py.M Canvas nat :=
  fun c => (Py.Ok (next_id c),
            MkCanvas (<[next_id c := it]> (items c)) (S (next_id c))).

Definition create_rectangle (x1 y1 x2 y2 : Q) (fill outline : string)
    (width : option Q) : Py.M Canvas nat :=
  create (Item rectangle_item [x1; y1; x2; y2] fill outline width "" "" None).

Definition create_text (x y : Q) (text anchor : string)
    (font : string * Z * string) (fill : string) : Py.M Canvas nat :=
  create (Item text_item [x; y] fill "" None text anchor (Some font)).

Definition configure (id : nat) (f : item -> item) : Py.M Canvas () :=
  Py.modify (fun c => MkCanvas (alter f id (items c)) (next_id c)).

Definition with_coords (cs : list Q) (it : item) : item :=
  Item (item_kind it) cs (item_fill it) (item_outline it) (item_width it)
       (item_text it) (item_anchor it) (item_font it).
Definition with_fill (color : string) (it : item) : item :=
  Item (item_kind it) (item_coords it) color (item_outline it)
       (item_width it) (item_text it) (item_anchor it) (item_font it).
Definition with_text (s : string) (it : item) : item :=
  Item (item_kind it) (item_coords it) (item_fill it) (item_outline it)
       (item_width it) s (item_anchor it) (item_font it).

(** [canvas.coords(id, x1, y1, x2, y2)]. *)
Definition coords (id : nat) (cs : list Q) : Py.M Canvas () :=
  configure id (with_coords cs).

(** [canvas.itemconfig(id, fill=color)]. *)
Definition itemconfig_fill (id : nat) (color : string) : Py.M Canvas () :=
  configure id (with_fill color).

(** [canvas.itemconfig(id, text=s)]. *)
Definition itemconfig_text (id : nat) (s : string) : Py.M Canvas () :=
  configure id (with_text s).

End Tk.

(** ** class ResourceBubble *)

Module ResourceBubble.

Record t : Type := Mk {
  x : Q;
  y : Q;
  width : Q;
  height : Q;
  label : string;
  max_value : Q;
  unit : string;
  value : Q;
  is_temperature : bool;
  bg_rect : nat;
  fill_rect : nat;
  label_text : nat;
  value_text : nat
}.

(** A method runs on the object and the canvas it refers to. *)
Definition state : Type := t * Tk.Canvas.

Definition self : Py.M state t := Py.gets fst.
Definition on_canvas {A} (m : Py.M Tk.Canvas A) : Py.M state A :=
  Py.zoom snd (fun c s => (fst s, c)) m.

(** The assignment [self.value = v]. *)
Definition with_value (b : t) (v : Q) : t :=
  Mk (x b) (y b) (width b) (height b) (label b) (max_value b) (unit b)
     v (is_temperature b) (bg_rect b) (fill_rect b) (label_text b)
     (value_text b).
Definition set_value (v : Q) : Py.M state () :=
  Py.modify (fun s => (with_value (fst s) v, snd s)).

(** [__init__(self, canvas, x, y, width, height, label, max_value,
    unit, is_temperature)]: creates the four canvas items. *)
Definition __init__ (x y width height : Q) (label : string) (max_value : Q)
    (unit : string) (is_temperature : bool) : Py.M Tk.Canvas t :=
  bg_rect ← Tk.create_rectangle x y (x + width) (y + height)
               "#2b2b2b" "#404040" (Some 1%Q);
  fill_rect ← Tk.create_rectangle x y x (y + height) "#4CAF50" "" None;
  let text_y := (y + Py.floordiv height 2)%Q in
  label_text ← Tk.create_text (x + 5) text_y label "w"
               ("Segoe UI", 8, "bold") "#e0e0e0";
  value_text ← Tk.create_text (x + width - 5) text_y ("0" ++ unit) "e"
               ("Segoe UI", 8, "bold") "#e0e0e0";
  mret (Mk x y width height label max_value unit 0%Q is_temperature
           bg_rect fill_rect label_text value_text).

(** [f"#{r:02x}{g:02x}{b:02x}"]. *)
Definition hex_color (rgb : Z * Z * Z) : string :=
  let '(r, g, b) := rgb in
  "#" ++ Py.format_02x r ++ Py.format_02x g ++ Py.format_02x b.

(** The channels [r], [g], [b] of [interpolate_color]. *)
Definition interpolate_color_rgb (value_percent : Q) : Z * Z * Z :=
  if Qle_bool value_percent 50 then
    let ratio := (value_percent / 50)%Q in
    (Py.int (76 + (255 - 76) * ratio),
     Py.int (175 + (235 - 175) * ratio),
     Py.int (80 - 80 * ratio))
  else
    let ratio := ((value_percent - 50) / 50)%Q in
    (255,
     Py.int (235 - (235 - 82) * ratio),
     Py.int (59 * (1 - ratio))).

Definition interpolate_color (value_percent : Q) : string :=
  hex_color (interpolate_color_rgb value_percent).

(** The branch [interpolate_temperature_color] takes. *)
Inductive band : Type :=
| Green
| GreenToYellow
| YellowToOrange
| OrangeToRed.

Definition temperature_band (temp_celsius : Q) : band :=
  if Py.ltb temp_celsius 50 then Green
  else if Py.ltb temp_celsius 60 then GreenToYellow
  else if Py.ltb temp_celsius 70 then YellowToOrange
  else OrangeToRed.

(** The local [ratio] of the three interpolating branches. *)
Definition temperature_ratio (temp_celsius : Q) : Q :=
  match temperature_band temp_celsius with
  | Green => 0
  | GreenToYellow => (temp_celsius - 50) / 10
  | YellowToOrange => (temp_celsius - 60) / 10
  | OrangeToRed => Py.min ((temp_celsius - 70) / 30) 1
  end%Q.

(** The channels of the interpolating branches; the first branch
    returns a literal and computes none. *)
Definition interpolate_temperature_rgb (temp_celsius : Q)
  : option (Z * Z * Z) :=
  let ratio := temperature_ratio temp_celsius in
  match temperature_band temp_celsius with
  | Green => None
  | GreenToYellow =>
      Some (Py.int (76 + (255 - 76) * ratio),
            Py.int (175 + (235 - 175) * ratio),
            Py.int (80 - 80 * ratio))
  | YellowToOrange =>
      Some (255, Py.int (235 - (235 - 165) * ratio),
            Py.int (59 * (1 - ratio)))
  | OrangeToRed =>
      Some (255, Py.int (165 - (165 - 82) * ratio),
            Py.int (59 * (1 - ratio)))
  end.

Definition interpolate_temperature_color (temp_celsius : Q) : string :=
  match interpolate_temperature_rgb temp_celsius with
  | None => "#4CAF50"
  | Some rgb => hex_color rgb
  end.

(** [update(self, value)]. *)
Definition update (value_ : Py.value) : Py.M state () :=
  b ← self;
  v ← Py.min_value value_ (max_value b);
  set_value v;;
  b ← self;
  q ← Py.div (value b) (max_value b);
  let value_percent := (q * 100)%Q in
  q ← Py.div (value b) (max_value b);
  let fill_width := (q * width b)%Q in
  on_canvas (Tk.coords (fill_rect b)
    [x b; y b; (x b + fill_width)%Q; (y b + height b)%Q]);;
  let color :=
    if is_temperature b then interpolate_temperature_color (value b)
    else interpolate_color value_percent in
  on_canvas (Tk.itemconfig_fill (fill_rect b) color);;
  let text :=
    if String.eqb (unit b) "°C" then Py.str_int (Py.int (value b)) ++ unit b
    else Py.format_0f (value b) ++ unit b in
  on_canvas (Tk.itemconfig_text (value_text b) text).

(** *** What a bubble shows

    The render state is not an attribute of the object: it is what the
    canvas holds for the bubble's fill rectangle and value text. *)

(** The fraction of the bubble that [update] fills: the local
    [self.value / self.max_value] that scales [self.width]. *)
Definition fill_ratio (b : t) : Q := (value b / max_value b)%Q.

(** Width of the fill rectangle, [x2 - x1] of its coordinates, as a
    fraction in lowest terms. *)
Definition fill_extent (s : state) : option Q :=
  match Tk.item_coords <$> Tk.items (snd s) !! fill_rect (fst s) with
  | Some [x1; _; x2; _] => Some (Qred (x2 - x1))
  | _ => None
  end.

Definition fill_color (s : state) : option string :=
  Tk.item_fill <$> Tk.items (snd s) !! fill_rect (fst s).

Definition display_text (s : state) : option string :=
  Tk.item_text <$> Tk.items (snd s) !! value_text (fst s).

(** The render state [update] derives from the stored value: the
    coordinates, the colour and the text it hands to the canvas. *)
Definition render_coords (b : t) : list Q :=
  [x b; y b; x b + value b / max_value b * width b; y b + height b]%Q.

Definition render_color (b : t) : string :=
  if is_temperature b then interpolate_temperature_color (value b)
  else interpolate_color (value b / max_value b * 100).

Definition render_text (b : t) : string :=
  if String.eqb (unit b) "°C" then Py.str_int (Py.int (value b)) ++ unit b
  else Py.format_0f (value b) ++ unit b.

(** The canvas after the three calls [update] makes on it. *)
Definition drawn (b : t) (c : Tk.Canvas) : Tk.Canvas :=
  Tk.MkCanvas
    (alter (Tk.with_text (render_text b)) (value_text b)
       (alter (Tk.with_fill (render_color b)) (fill_rect b)
          (alter (Tk.with_coords (render_coords b)) (fill_rect b)
             (Tk.items c))))
    (Tk.next_id c).

End ResourceBubble.

(** ** The GPU backend (GPUtil)

    The module is a collaborator: what the program sees of it is
    whether the import succeeded ([GPU_AVAILABLE]) and what a call to
    [GPUtil.getGPUs()] does, return a list of GPU objects or raise. *)

Module GPUtil.

Record GPU : Type := MkGPU {
  load : Q;
  memoryUtil : Q;
  (** [None] when the object has no attribute [temperature] *)
  temperature : option Q
}.

End GPUtil.

(** ** class ResourceMonitor *)

Module ResourceMonitor.

Record t : Type := Mk {
  canvas : Tk.Canvas;
  cpu_bubble : ResourceBubble.t;
  ram_bubble : ResourceBubble.t;
  gpu_bubble : ResourceBubble.t;
  vram_bubble : ResourceBubble.t;
  temp_bubble : ResourceBubble.t
}.

(** The five attributes that hold a bubble. *)
Inductive bubble_attr : Type := Cpu | Ram | Gpu | Vram | Temp.

Global Instance bubble_attr_eq_dec : EqDecision bubble_attr.
Proof. solve_decision. Defined.

Definition bubble (a : bubble_attr) (m : t) : ResourceBubble.t :=
  match a with
  | Cpu => cpu_bubble m
  | Ram => ram_bubble m
  | Gpu => gpu_bubble m
  | Vram => vram_bubble m
  | Temp => temp_bubble m
  end.

Definition set_bubble (a : bubble_attr) (b : ResourceBubble.t) (m : t) : t :=
  match a with
  | Cpu => Mk (canvas m) b (ram_bubble m) (gpu_bubble m) (vram_bubble m)
              (temp_bubble m)
  | Ram => Mk (canvas m) (cpu_bubble m) b (gpu_bubble m) (vram_bubble m)
              (temp_bubble m)
  | Gpu => Mk (canvas m) (cpu_bubble m) (ram_bubble m) b (vram_bubble m)
              (temp_bubble m)
  | Vram => Mk (canvas m) (cpu_bubble m) (ram_bubble m) (gpu_bubble m) b
               (temp_bubble m)
  | Temp => Mk (canvas m) (cpu_bubble m) (ram_bubble m) (gpu_bubble m)
               (vram_bubble m) b
  end.

Definition set_canvas (c : Tk.Canvas) (m : t) : t :=
  Mk c (cpu_bubble m) (ram_bubble m) (gpu_bubble m) (vram_bubble m)
     (temp_bubble m).

(** A method call [self.<a>_bubble.m(...)]: the bubble and the canvas
    it shares with the other bubbles. *)
Definition call {A} (a : bubble_attr) (m : Py.M ResourceBubble.state A)
  : Py.M t A :=
  Py.zoom (fun s => (bubble a s, canvas s))
          (fun bc s => set_canvas (snd bc) (set_bubble a (fst bc) s)) m.

(** [create_widgets(self)], from the creation of the canvas on. *)
Definition create_widgets : Py.M Tk.Canvas t :=
  let bubble_width := 85%Q in
  let bubble_height := 30%Q in
  let bubble_y := 5%Q in
  let spacing := 3%Q in
  let start_x := 5%Q in
  cpu_bubble ← ResourceBubble.__init__ start_x bubble_y bubble_width
                 bubble_height "CPU" 100 "%" false;
  ram_bubble ← ResourceBubble.__init__
                 (start_x + (bubble_width + spacing) * 1) bubble_y
                 bubble_width bubble_height "RAM" 100 "%" false;
  gpu_bubble ← ResourceBubble.__init__
                 (start_x + (bubble_width + spacing) * 2) bubble_y
                 bubble_width bubble_height "GPU" 100 "%" false;
  vram_bubble ← ResourceBubble.__init__
                 (start_x + (bubble_width + spacing) * 3) bubble_y
                 bubble_width bubble_height "VRAM" 100 "%" false;
  temp_bubble ← ResourceBubble.__init__
                 (start_x + (bubble_width + spacing) * 4) bubble_y
                 bubble_width bubble_height "Temp" 100 "°C" true;
  c ← Py.get;
  mret (Mk c cpu_bubble ram_bubble gpu_bubble vram_bubble temp_bubble).

(** The monitor as [__init__] leaves it, as far as the bubbles and
    the canvas go. *)
Definition fresh : t :=
  match create_widgets Tk.new_canvas with
  | (Py.Ok m, _) => m
  | (Py.Raise _, c) =>
      let b := ResourceBubble.Mk 0 0 0 0 "" 0 "" 0 false 0 0 0 0 in
      Mk c b b b b b
  end.

(** [print(s)] on a state that is the lines written to stdout. *)
Definition print (s : string) : Py.M (list string) () :=
  Py.modify (fun out => out ++ [s])%list.

(** [get_gpu_stats(self)]; [GPU_AVAILABLE] is the module-level flag
    and [getGPUs] the backend call. *)
Definition get_gpu_stats (GPU_AVAILABLE : bool)
    (getGPUs : Py.M (list string) (list GPUtil.GPU))
  : Py.M (list string) (Py.value * Py.value * Py.value) :=
  if negb GPU_AVAILABLE then mret (Py.None_, Py.None_, Py.None_)
  else
    r ← Py.try_except
          (gpus ← getGPUs;
           match gpus with
           | gpu :: _ =>
               let gpu_load := (GPUtil.load gpu * 100)%Q in
               let vram_load := (GPUtil.memoryUtil gpu * 100)%Q in
               let temperature :=
                 match GPUtil.temperature gpu with
                 | Some t => Py.Num t
                 | None => Py.None_
                 end in
               mret (Some (Py.Num gpu_load, Py.Num vram_load, temperature))
           | [] => mret None
           end)
          (fun e => print ("GPU stats error: " ++ Py.exc_str e);; mret None);
    match r with
    | Some stats => mret stats
    | None => mret (Py.None_, Py.None_, Py.None_)
    end.

(** [update_bubbles(self, cpu, ram, gpu, vram, temp)]. *)
Definition update_bubbles (cpu_ ram_ gpu_ vram_ temp_ : Py.value)
  : Py.M t () :=
  call Cpu (ResourceBubble.update cpu_);;
  call Ram (ResourceBubble.update ram_);;
  match gpu_ with
  | Py.Num _ => call Gpu (ResourceBubble.update gpu_)
  | Py.None_ => call Gpu (ResourceBubble.update (Py.Num 0))
  end;;
  match vram_ with
  | Py.Num _ => call Vram (ResourceBubble.update vram_)
  | Py.None_ => call Vram (ResourceBubble.update (Py.Num 0))
  end;;
  match temp_ with
  | Py.Num _ => call Temp (ResourceBubble.update temp_)
  | Py.None_ => call Temp (ResourceBubble.update (Py.Num 0))
  end.

(** A bubble of the monitor that shows a zero reading: nothing
    filled, the green of the ramp, and "0" with the unit. *)
Definition shows_zero (a : bubble_attr) (m : t) : Prop :=
  let b := bubble a m in
  ResourceBubble.value b = 0%Q /\
  (ResourceBubble.fill_ratio b == 0)%Q /\
  ResourceBubble.fill_extent (b, canvas m) = Some 0%Q /\
  ResourceBubble.fill_color (b, canvas m)
  = Some (if ResourceBubble.is_temperature b then "#4CAF50" else "#4caf50") /\
  ResourceBubble.display_text (b, canvas m)
  = Some ("0" ++ ResourceBubble.unit b).

(** The layout [create_widgets] sets up, as far as [update_bubbles]
    relies on it: every bubble has a positive [max_value] and refers
    to a fill rectangle and a value text that exist on the canvas, and
    no two bubbles refer to the same item. *)
Definition owns_items (a : bubble_attr) (m : t) : Prop :=
  (0 < ResourceBubble.max_value (bubble a m))%Q /\
  is_Some (Tk.items (canvas m) !! ResourceBubble.fill_rect (bubble a m)) /\
  is_Some (Tk.items (canvas m) !! ResourceBubble.value_text (bubble a m)).

Definition item_ids (b : ResourceBubble.t) : list nat :=
  [ResourceBubble.fill_rect b; ResourceBubble.value_text b].

Definition well_formed (m : t) : Prop :=
  (forall a, owns_items a m) /\
  (forall a a' id, a <> a' ->
     id ∈ item_ids (bubble a m) -> id ∉ item_ids (bubble a' m)).

(** *** The sampling loop

    What one pass through the body of the [while] loop of
    [update_stats] does to the outside: lines written to stdout and
    calls handed to the UI thread with [root.after].  The metric
    sources are collaborators and may raise; waiting ([time.sleep]) is
    not modelled. *)
Record World : Type := MkWorld {
  stdout : list string;
  after_calls : list (Py.value * Py.value * Py.value * Py.value * Py.value)
}.

Definition on_stdout {A} (m : Py.M (list string) A) : Py.M World A :=
  Py.zoom stdout (fun out w => MkWorld out (after_calls w)) m.

(** [self.root.after(0, self.update_bubbles, cpu, ram, gpu, vram, temp)]. *)
Definition after
    (args : Py.value * Py.value * Py.value * Py.value * Py.value)
  : Py.M World () :=
  Py.modify (fun w => MkWorld (stdout w) (after_calls w ++ [args])%list).

Definition update_stats_body (GPU_AVAILABLE : bool)
    (cpu_percent virtual_memory_percent : Py.M World Q)
    (getGPUs : Py.M (list string) (list GPUtil.GPU)) : Py.M World () :=
  Py.try_except
    (cpu_percent_ ← cpu_percent;
     ram_percent ← virtual_memory_percent;
     stats ← on_stdout (get_gpu_stats GPU_AVAILABLE getGPUs);
     let '(gpu_percent, vram_percent, gpu_temp) := stats in
     after (Py.Num cpu_percent_, Py.Num ram_percent,
            gpu_percent, vram_percent, gpu_temp))
    (fun e => on_stdout (print ("Update error: " ++ Py.exc_str e))).

End ResourceMonitor.

(** ** What the canvas accepts and keeps

    Two notions used to state what the bubbles hand to the canvas: a
    colour written [#rrggbb], and a canvas whose ids from [next_id] on
    are still free, which is how Tk hands out ids. *)

Module Canvas.

Definition is_hex_digit (a : ascii) : bool :=
  let n := N_of_ascii a in
  (((48 <=? n) && (n <=? 57)) || ((97 <=? n) && (n <=? 102))
   || ((65 <=? n) && (n <=? 70)))%N.

Fixpoint all_hex (s : string) : bool :=
  match s with
  | EmptyString => true
  | String a s' => is_hex_digit a && all_hex s'
  end.

(** A colour of the form [#rrggbb]. *)
Definition is_rgb_color (s : string) : bool :=
  match s with
  | String "#" digits => Nat.eqb (String.length digits) 6 && all_hex digits
  | _ => false
  end.

Definition fresh_ids (c : Tk.Canvas) : Prop :=
  forall id : nat, (Tk.next_id c <= id)%nat -> Tk.items c !! id = None.

End Canvas.

(** ** class ResourceMonitor: the window and its lifetime

    The methods that show, hide and close the window.  The Tk root is
    modelled by what these methods change of it, whether the window is
    mapped; [root.quit], [root.destroy] and the tray icon's [stop] are
    collaborators that act on a state of their own and may raise. *)

Module Window.

Definition window_width : Q := 450.
Definition window_height : Q := 40.

Record t : Type := Mk {
  (** the Tk root: mapped on screen, or withdrawn *)
  mapped : bool;
  window_visible : bool;
  running : bool;
  (** [self.tray_icon]: [None], or the icon with its [visible] flag *)
  tray_icon : option bool
}.

(** The attributes as [__init__] leaves them. *)
Definition initial : t := Mk true true true (Some true).

(** [self.root.withdraw()] and [self.root.deiconify()]. *)
Definition withdraw : Py.M t () :=
  Py.modify (fun s => Mk false (window_visible s) (running s) (tray_icon s)).
Definition deiconify : Py.M t () :=
  Py.modify (fun s => Mk true (window_visible s) (running s) (tray_icon s)).

Definition set_window_visible (v : bool) : Py.M t () :=
  Py.modify (fun s => Mk (mapped s) v (running s) (tray_icon s)).
Definition set_running (v : bool) : Py.M t () :=
  Py.modify (fun s => Mk (mapped s) (window_visible s) v (tray_icon s)).
Definition set_tray_visible (v : bool) : Py.M t () :=
  Py.modify (fun s => Mk (mapped s) (window_visible s) (running s) (Some v)).

(** [hide_window(self)]. *)
Definition hide_window : Py.M t () :=
  withdraw;;
  set_window_visible false.

(** [show_window(self)]. *)
Definition show_window : Py.M t () :=
  deiconify;;
  set_window_visible true.

(** [toggle_window(self, icon=None, item=None)]. *)
Definition toggle_window : Py.M t () :=
  visible ← (Py.gets window_visible : Py.M t bool);
  if (visible : bool) then hide_window else show_window.

(** What the tray menu and the window manager can ask for. *)
Inductive request : Type := Toggle | Hide | Show.

Definition handle (r : request) : Py.M t () :=
  match r with
  | Toggle => toggle_window
  | Hide => hide_window
  | Show => show_window
  end.

Fixpoint handle_all (rs : list request) : Py.M t () :=
  match rs with
  | [] => mret ()
  | r :: rs' => handle r;; handle_all rs'
  end.

(** A bare [except:] clause, which catches whatever is raised. *)
Definition try_except_all {St A} (body : Py.M St A) (handler : Py.M St A)
  : Py.M St A :=
  fun s => match body s with
           | (Py.Raise _, s') => handler s'
           | r => r
           end.

(** [sys.exit(code)] raises [SystemExit]. *)
Definition sys_exit {St A} (code : Z) : Py.M St A :=
  Py.raise (Py.Exc (Py.BaseException_ "SystemExit") (Py.str_int code)).

Definition on_self {Ext A} (m : Py.M t A) : Py.M (t * Ext) A :=
  Py.zoom fst (fun s se => (s, snd se)) m.
Definition on_ext {Ext A} (m : Py.M Ext A) : Py.M (t * Ext) A :=
  Py.zoom snd (fun e se => (fst se, e)) m.

(** [quit_app(self, icon=None, item=None)]; [time.sleep] is not
    modelled. *)
Definition quit_app {Ext} (tray_stop root_quit root_destroy : Py.M Ext ())
  : Py.M (t * Ext) () :=
  on_self (set_running false);;
  icon ← on_self (Py.gets tray_icon);
  match icon with
  | Some _ => on_self (set_tray_visible false);; on_ext tray_stop
  | None => mret ()
  end;;
  try_except_all (on_ext root_quit;; on_ext root_destroy) (mret ());;
  sys_exit 0.

End Window.

(** ** Readings and what the dashboard shows for them *)

Module Dashboard.

(** The number [update_bubbles] passes on for a GPU, VRAM or
    temperature reading. *)
Definition or_zero (v : Py.value) : Q :=
  match v with
  | Py.Num q => q
  | Py.None_ => 0
  end.

Definition reading (cpu ram : Q) (gpu vram temp : Py.value)
    (a : ResourceMonitor.bubble_attr) : Q :=
  match a with
  | ResourceMonitor.Cpu => cpu
  | ResourceMonitor.Ram => ram
  | ResourceMonitor.Gpu => or_zero gpu
  | ResourceMonitor.Vram => or_zero vram
  | ResourceMonitor.Temp => or_zero temp
  end.

(** The canvas shows for a bubble the text of the value it stores,
    over a fill whose colour is of the form [#rrggbb]. *)
Definition in_sync (a : ResourceMonitor.bubble_attr) (m : ResourceMonitor.t)
  : Prop :=
  let b := ResourceMonitor.bubble a m in
  let c := ResourceMonitor.canvas m in
  ResourceBubble.display_text (b, c) = Some (ResourceBubble.render_text b) /\
  exists color, ResourceBubble.fill_color (b, c) = Some color /\
                Canvas.is_rgb_color color = true.

(** The place of a bubble in the row, from the left. *)
Definition slot (a : ResourceMonitor.bubble_attr) : Q :=
  match a with
  | ResourceMonitor.Cpu => 0
  | ResourceMonitor.Ram => 1
  | ResourceMonitor.Gpu => 2
  | ResourceMonitor.Vram => 3
  | ResourceMonitor.Temp => 4
  end.

End Dashboard.

(** ** Readings the program is made for

    The program computes in binary64 and draws through Tk, the
    embedding computes exactly and records what is drawn.  The two
    agree on what [update] does as long as no channel of the colour
    overflows or turns negative and whole numbers are shown exactly:
    that is the case for a positive [max_value] up to 10^15 and a
    reading not below a fifth of it under zero. *)

Module Reading.

Definition in_range (b : ResourceBubble.t) (v : Q) : Prop :=
  (0 < ResourceBubble.max_value b /\
   ResourceBubble.max_value b <= 1000000000000000 /\
   - (1 # 5) * ResourceBubble.max_value b <= v)%Q.

(** The five readings of a sample, each for its own bubble. *)
Definition sample_in_range (m : ResourceMonitor.t) (cpu ram : Q)
    (gpu vram temp : Py.value) : Prop :=
  forall a, in_range (ResourceMonitor.bubble a m)
                     (Dashboard.reading cpu ram gpu vram temp a).

(** What a GPU reports when it works: load and memory use as
    fractions, a temperature that is not negative. *)
Definition plausible_gpu (gpu : GPUtil.GPU) : Prop :=
  (0 <= GPUtil.load gpu <= 1 /\ 0 <= GPUtil.memoryUtil gpu <= 1 /\
   match GPUtil.temperature gpu with
   | Some t => 0 <= t
   | None => True
   end)%Q.

(** A whole number of pixels, small enough to be exact. *)
Definition whole (q : Q) : Prop :=
  (q == inject_Z (Qfloor q) /\ Qabs q <= 1000000000000000)%Q.

End Reading.

(** ** Truncation, up to rounding

    A channel is [int(x)] of an interpolation [x] that binary64
    carries with an error far below [tolerance].  Truncating the
    rounded value gives the floor of the exact one unless [x] is
    within [tolerance] of a whole number, where either neighbour can
    come out. *)

Module Binary64.

Definition tolerance : Q := 1 # 1000000000.

Definition clear_of_integers (x : Q) : Prop :=
  (tolerance <= x - inject_Z (Qfloor x) <= 1 - tolerance)%Q.

Definition truncation_of (x : Q) (c : Z) : Prop :=
  (clear_of_integers x -> c = Qfloor x) /\
  (x - 1 - tolerance < inject_Z c <= x + tolerance)%Q.

End Binary64.

(** ** Vocabulary of the specification

    The specification words the channels of a ramp as
    [round(start + (end - start) * ratio)]; the two definitions follow
    that sentence and are compared with the source's channels below. *)

Module Spec.

Definition lerp (start end_ ratio : Q) : Q :=
  (start + (end_ - start) * ratio)%Q.

Definition channel (start end_ ratio : Q) : Z :=
  Py.round (lerp start end_ ratio).

End Spec.

(** * Properties *)

(** ** Numbers *)

Section Numbers.

Local Open Scope Q_scope.

Lemma py_ltb_lt (a b : Q) : Py.ltb a b = true <-> a < b.
Proof.
  unfold Py.ltb. rewrite negb_true_iff, <- not_true_iff_false, Qle_bool_iff.
  split; [apply Qnot_le_lt | apply Qlt_not_le].
Qed.

Lemma py_ltb_ge (a b : Q) : Py.ltb a b = false <-> b <= a.
Proof.
  unfold Py.ltb. rewrite negb_false_iff. apply Qle_bool_iff.
Qed.

Lemma py_min_le_r (a b : Q) : Py.min a b <= b.
Proof.
  unfold Py.min. destruct (Py.ltb b a) eqn:E.
  - apply Qle_refl.
  - now apply py_ltb_ge in E.
Qed.

Lemma py_min_le_l (a b : Q) : Py.min a b <= a.
Proof.
  unfold Py.min. destruct (Py.ltb b a) eqn:E.
  - apply py_ltb_lt in E. now apply Qlt_le_weak.
  - apply Qle_refl.
Qed.

Lemma py_min_glb (a b m : Q) : m <= a -> m <= b -> m <= Py.min a b.
Proof. intros Ha Hb. unfold Py.min. now destruct (Py.ltb b a). Qed.

Lemma py_min_l (a b : Q) : a <= b -> Py.min a b = a.
Proof.
  intros H. unfold Py.min. destruct (Py.ltb b a) eqn:E; [|reflexivity].
  apply py_ltb_lt in E. exfalso. exact (Qlt_not_le _ _ E H).
Qed.

Lemma py_min_r (a b : Q) : b < a -> Py.min a b = b.
Proof.
  intros H. unfold Py.min. apply py_ltb_lt in H. now rewrite H.
Qed.

Lemma py_int_nonneg (x : Q) : 0 <= x -> Py.int x = Qfloor x.
Proof.
  intros H. unfold Py.int. apply Qle_bool_iff in H. now rewrite H.
Qed.

Lemma py_int_neg (x : Q) : x < 0 -> Py.int x = Qceiling x.
Proof.
  intros H. unfold Py.int. destruct (Qle_bool 0 x) eqn:E; [|reflexivity].
  apply Qle_bool_iff in E. exfalso. exact (Qlt_not_le _ _ H E).
Qed.

End Numbers.

(** ** The method [update], statement by statement *)

Section Update.

Import ResourceBubble.

Lemma update_None (s : state) :
  update Py.None_ s =
  (Py.Raise (Py.Exc Py.TypeError
     "'<' not supported between instances of 'int' and 'NoneType'"), s).
Proof. destruct s as [b c]. reflexivity. Qed.

Ltac run_update H :=
  unfold update;
  cbv [self Py.gets mbind M_bind Py.bind Py.min_value Py.ret set_value
       Py.modify Py.div on_canvas Py.zoom];
  cbn [fst snd with_value max_value value];
  rewrite H; reflexivity.

Lemma update_Num_ok (b : t) (c : Tk.Canvas) (v : Q) :
  Qeq_bool (max_value b) 0 = false ->
  let b' := with_value b (Py.min v (max_value b)) in
  update (Py.Num v) (b, c) = (Py.Ok (), (b', drawn b' c)).
Proof. intros H b'. run_update H. Qed.

Lemma update_Num_zero (b : t) (c : Tk.Canvas) (v : Q) :
  Qeq_bool (max_value b) 0 = true ->
  update (Py.Num v) (b, c) =
  (Py.Raise (Py.Exc Py.ZeroDivisionError "division by zero"),
   (with_value b (Py.min v (max_value b)), c)).
Proof. intros H. run_update H. Qed.

Lemma Qeq_bool_pos (m : Q) : (0 < m)%Q -> Qeq_bool m 0 = false.
Proof.
  intros H. apply not_true_iff_false. intros E. apply Qeq_bool_iff in E.
  rewrite E in H. exact (Qlt_irrefl _ H).
Qed.

(** The object after [update], whatever the outcome. *)
Lemma update_object (b : t) (c : Tk.Canvas) (v : Q) :
  fst (snd (update (Py.Num v) (b, c))) = with_value b (Py.min v (max_value b)).
Proof.
  destruct (Qeq_bool (max_value b) 0) eqn:E.
  - now rewrite update_Num_zero.
  - now rewrite update_Num_ok.
Qed.

End Update.

(** ** The canvas after [update] *)

Section Drawn.

Import ResourceBubble.

(** Items other than the fill rectangle and the value text are not
    touched. *)
Lemma drawn_other (b : t) (c : Tk.Canvas) (id : nat) :
  id ≠ fill_rect b -> id ≠ value_text b ->
  Tk.items (drawn b c) !! id = Tk.items c !! id.
Proof.
  intros Hf Hv. unfold drawn. cbn [Tk.items].
  rewrite lookup_alter_ne by congruence.
  rewrite lookup_alter_ne by congruence.
  now rewrite lookup_alter_ne by congruence.
Qed.

Lemma drawn_text (b : t) (c : Tk.Canvas) (it : Tk.item) :
  Tk.items c !! value_text b = Some it ->
  Tk.item_text <$> Tk.items (drawn b c) !! value_text b
  = Some (render_text b).
Proof.
  intros H. unfold drawn. cbn [Tk.items].
  rewrite lookup_alter_eq.
  destruct (decide (fill_rect b = value_text b)) as [E|E].
  - rewrite E, !lookup_alter_eq, H. reflexivity.
  - rewrite !lookup_alter_ne, H by exact E. reflexivity.
Qed.

Lemma drawn_fill (b : t) (c : Tk.Canvas) (it : Tk.item) :
  Tk.items c !! fill_rect b = Some it ->
  exists it',
    Tk.items (drawn b c) !! fill_rect b = Some it' /\
    Tk.item_coords it' = render_coords b /\
    Tk.item_fill it' = render_color b.
Proof.
  intros H. unfold drawn. cbn [Tk.items].
  destruct (decide (value_text b = fill_rect b)) as [E|E].
  - rewrite E, !lookup_alter_eq, H. cbn. eexists; repeat split.
  - rewrite lookup_alter_ne, !lookup_alter_eq, H by exact E.
    cbn. eexists; repeat split.
Qed.

Lemma drawn_next_id (b : t) (c : Tk.Canvas) :
  Tk.next_id (drawn b c) = Tk.next_id c.
Proof. reflexivity. Qed.

(** What [update] leaves alone, whatever the argument and the
    outcome. *)
Lemma update_frame (b : t) (c : Tk.Canvas) (v : Py.value) :
  let s' := snd (update v (b, c)) in
  label (fst s') = label b /\
  unit (fst s') = unit b /\
  max_value (fst s') = max_value b /\
  is_temperature (fst s') = is_temperature b /\
  x (fst s') = x b /\ y (fst s') = y b /\
  width (fst s') = width b /\ height (fst s') = height b /\
  bg_rect (fst s') = bg_rect b /\ fill_rect (fst s') = fill_rect b /\
  label_text (fst s') = label_text b /\ value_text (fst s') = value_text b /\
  Tk.next_id (snd s') = Tk.next_id c /\
  (forall id : nat, id ≠ fill_rect b -> id ≠ value_text b ->
     Tk.items (snd s') !! id = Tk.items c !! id).
Proof.
  destruct v as [|q].
  - rewrite update_None. cbn. repeat split.
  - destruct (Qeq_bool (max_value b) 0) eqn:E.
    + rewrite update_Num_zero by exact E. cbn. repeat split.
    + rewrite update_Num_ok by exact E. cbv zeta. cbn [fst snd].
      repeat split. intros id Hf Hv. now apply drawn_other.
Qed.

End Drawn.


(** ** A zero reading *)

Section ZeroReading.

Import ResourceBubble.
Local Open Scope Q_scope.

Lemma py_int_comp (x y : Q) : x == y -> Py.int x = Py.int y.
Proof.
  intros E. unfold Py.int. rewrite (Qleb_comp 0 0 (Qeq_refl 0) x y E).
  destruct (Qle_bool 0 y); [now apply Qfloor_comp | now apply Qceiling_comp].
Qed.

Lemma interpolate_color_rgb_comp (p q : Q) :
  p == q -> interpolate_color_rgb p = interpolate_color_rgb q.
Proof.
  intros E. unfold interpolate_color_rgb.
  rewrite (Qleb_comp p q E 50 50 (Qeq_refl 50)).
  destruct (Qle_bool q 50).
  - f_equal; [f_equal|]; apply py_int_comp; now rewrite E.
  - f_equal; [f_equal|]; apply py_int_comp; now rewrite E.
Qed.

Lemma render_color_zero (b : t) :
  value b = 0 ->
  render_color b = if is_temperature b then "#4CAF50"%string
                   else "#4caf50"%string.
Proof.
  intros E. unfold render_color. rewrite E. destruct (is_temperature b).
  - reflexivity.
  - unfold interpolate_color.
    rewrite (interpolate_color_rgb_comp _ 0); [reflexivity|].
    unfold Qdiv. now rewrite !Qmult_0_l.
Qed.

Lemma render_text_zero (b : t) :
  value b = 0 -> render_text b = ("0" ++ unit b)%string.
Proof.
  intros E. unfold render_text. rewrite E.
  now destruct (String.eqb (unit b) "°C").
Qed.

(** [update(0)] on a bubble with a positive [max_value]. *)
Lemma update_zero (b : t) (c : Tk.Canvas) :
  0 < max_value b ->
  let s' := snd (update (Py.Num 0) (b, c)) in
  fst (update (Py.Num 0) (b, c)) = Py.Ok () /\
  value (fst s') = 0 /\
  fill_ratio (fst s') == 0 /\
  (is_Some (Tk.items c !! fill_rect b) ->
   fill_extent s' = Some 0 /\
   fill_color s' = Some (if is_temperature b then "#4CAF50"%string
                         else "#4caf50"%string)) /\
  (is_Some (Tk.items c !! value_text b) ->
   display_text s' = Some ("0" ++ unit b)%string).
Proof.
  intros Hmax. cbv zeta. rewrite update_Num_ok by now apply Qeq_bool_pos.
  cbn [fst snd].
  assert (Hmin : Py.min 0 (max_value b) = 0)
    by (apply py_min_l; now apply Qlt_le_weak).
  rewrite Hmin. set (b' := with_value b 0).
  split; [reflexivity|]. split; [reflexivity|]. split; [|split].
  - unfold fill_ratio. cbn [value max_value with_value b'].
    unfold Qdiv. apply Qmult_0_l.
  - intros [it Hit]. unfold fill_extent, fill_color. cbn [fst snd].
    change (fill_rect b) with (fill_rect b') in Hit.
    destruct (drawn_fill _ _ _ Hit) as (it' & -> & Hc & Hf).
    cbn [fmap option_fmap option_map]. rewrite Hc, Hf. split.
    + unfold render_coords. f_equal. change 0 with (Qred 0).
      apply Qred_complete. cbn [x value max_value width with_value b'].
      unfold Qdiv. rewrite Qmult_0_l, Qmult_0_l. ring.
    + f_equal. change (is_temperature b) with (is_temperature b').
      now apply render_color_zero.
  - intros [it Hit]. unfold display_text. cbn [fst snd].
    change (value_text b) with (value_text b') in Hit.
    rewrite (drawn_text _ _ _ Hit). f_equal.
    change (unit b) with (unit b'). now apply render_text_zero.
Qed.

End ZeroReading.

(** ** Claims about [update] *)

Section UpdateClaims.

Import ResourceBubble.
Local Open Scope Q_scope.

(** C1, as the code has it.  After [update(v)] with a number the
    stored value is [min(v, max_value)]: it never exceeds [max_value]
    nor [v], and only the upper side is clamped; it is non-negative
    when both [v] and [max_value] are, and a negative [v] is stored as
    it is. *)
Theorem C1_update_clamps_above (b : t) (c : Tk.Canvas) (v : Q) :
  let b' := fst (snd (update (Py.Num v) (b, c))) in
  value b' = Py.min v (max_value b) /\
  max_value b' = max_value b /\
  value b' <= max_value b' /\
  value b' <= v /\
  (0 <= v -> 0 <= max_value b -> 0 <= value b') /\
  (v < 0 -> 0 <= max_value b -> value b' = v).
Proof.
  cbv zeta. rewrite update_object. cbn [value max_value with_value].
  repeat split.
  - apply py_min_le_r.
  - apply py_min_le_l.
  - intros Hv Hm. now apply py_min_glb.
  - intros Hv Hm. apply py_min_l. apply Qlt_le_weak.
    now apply Qlt_le_trans with 0.
Qed.

Lemma C1_update_clamps_above_witness :
  let b' := fst (snd (update (Py.Num 150)
                        (ResourceMonitor.cpu_bubble ResourceMonitor.fresh,
                         ResourceMonitor.canvas ResourceMonitor.fresh))) in
  value b' = 100 /\ 0 <= value b' <= max_value b'.
Proof.
  pose proof (C1_update_clamps_above
                (ResourceMonitor.cpu_bubble ResourceMonitor.fresh)
                (ResourceMonitor.canvas ResourceMonitor.fresh) 150)
    as (Hv & Hm & Hle & _ & Hpos & _).
  cbv zeta. split; [|split].
  - rewrite Hv. vm_compute. reflexivity.
  - apply Hpos; vm_compute; discriminate.
  - exact Hle.
Defined.

(** C1, refuted as stated: a negative reading is stored unchanged, so
    the lower bound of the invariant does not hold after [update]. *)
Lemma C1_negative_value_stored :
  let s := update (Py.Num (-5))
             (ResourceMonitor.cpu_bubble ResourceMonitor.fresh,
              ResourceMonitor.canvas ResourceMonitor.fresh) in
  fst s = Py.Ok () /\
  value (fst (snd s)) = -5 /\
  ~ (0 <= value (fst (snd s)) <= max_value (fst (snd s))).
Proof.
  vm_compute. repeat split. intros [H _]. now apply H.
Qed.

(** C2, as the code has it.  [update(None)] raises [TypeError] and
    leaves the bubble and the canvas as they were; the caller
    [update_bubbles] passes [0] in place of an absent GPU, VRAM or
    temperature reading; and [update(0)] on a bubble with a positive
    [max_value] completes, stores [0], fills nothing and shows "0"
    followed by the unit. *)
Theorem C2_update_absent_and_zero (b : t) (c : Tk.Canvas)
    (m : ResourceMonitor.t) (cpu ram : Py.value) :
  0 < max_value b ->
  (exists e, fst (update Py.None_ (b, c)) = Py.Raise e /\
             Py.exc_type e = Py.TypeError) /\
  snd (update Py.None_ (b, c)) = (b, c) /\
  ResourceMonitor.update_bubbles cpu ram Py.None_ Py.None_ Py.None_ m
  = ResourceMonitor.update_bubbles cpu ram (Py.Num 0) (Py.Num 0) (Py.Num 0) m /\
  let s' := snd (update (Py.Num 0) (b, c)) in
  fst (update (Py.Num 0) (b, c)) = Py.Ok () /\
  value (fst s') = 0 /\
  fill_ratio (fst s') == 0 /\
  (is_Some (Tk.items c !! value_text b) ->
   display_text s' = Some ("0" ++ unit b)%string) /\
  (is_Some (Tk.items c !! fill_rect b) -> fill_extent s' = Some 0).
Proof.
  intros Hmax. rewrite update_None. cbn [fst snd].
  split; [eexists; split; reflexivity|].
  split; [reflexivity|]. split; [reflexivity|].
  destruct (update_zero b c Hmax) as (Hok & Hv & Hr & Hfill & Htext).
  repeat split; try assumption. intros H. now apply Hfill.
Qed.

Lemma C2_update_absent_and_zero_witness :
  let s := (ResourceMonitor.temp_bubble ResourceMonitor.fresh,
            ResourceMonitor.canvas ResourceMonitor.fresh) in
  fst (update (Py.Num 0) s) = Py.Ok () /\
  display_text (snd (update (Py.Num 0) s)) = Some "0°C"%string.
Proof.
  pose proof (C2_update_absent_and_zero
                (ResourceMonitor.temp_bubble ResourceMonitor.fresh)
                (ResourceMonitor.canvas ResourceMonitor.fresh)
                ResourceMonitor.fresh (Py.Num 1) (Py.Num 1) eq_refl)
    as (_ & _ & _ & Hok & _ & _ & Htext & _).
  cbv zeta. split; [exact Hok|].
  rewrite Htext; [vm_compute; reflexivity | vm_compute; eexists; reflexivity].
Defined.

(** C2, refuted as stated: on a bubble of the dashboard
    [update(None)] raises instead of showing zero. *)
Lemma C2_update_None_raises :
  let s := (ResourceMonitor.gpu_bubble ResourceMonitor.fresh,
            ResourceMonitor.canvas ResourceMonitor.fresh) in
  fst (update Py.None_ s) <> Py.Ok () /\
  Py.exc_type
    (match fst (update Py.None_ s) with
     | Py.Raise e => e
     | Py.Ok _ => Py.Exc (Py.Exception_ "") ""
     end) = Py.TypeError.
Proof. cbv zeta. rewrite update_None. split; [discriminate | reflexivity]. Qed.

(** C10.  Whatever is passed, [update] leaves the label, the unit,
    [max_value], the temperature flag, the geometry and the item ids of
    the bubble as they were, creates no item, and changes no canvas
    item other than the bubble's fill rectangle and value text. *)
Theorem C10_update_frame (b : t) (c : Tk.Canvas) (v : Py.value) :
  let s' := snd (update v (b, c)) in
  label (fst s') = label b /\
  unit (fst s') = unit b /\
  max_value (fst s') = max_value b /\
  is_temperature (fst s') = is_temperature b /\
  x (fst s') = x b /\ y (fst s') = y b /\
  width (fst s') = width b /\ height (fst s') = height b /\
  bg_rect (fst s') = bg_rect b /\ fill_rect (fst s') = fill_rect b /\
  label_text (fst s') = label_text b /\ value_text (fst s') = value_text b /\
  Tk.next_id (snd s') = Tk.next_id c /\
  (forall id : nat, id ≠ fill_rect b -> id ≠ value_text b ->
     Tk.items (snd s') !! id = Tk.items c !! id).
Proof. exact (update_frame b c v). Qed.

Lemma C10_update_frame_witness :
  let m := ResourceMonitor.fresh in
  let s' := snd (update (Py.Num 75)
                   (ResourceMonitor.cpu_bubble m, ResourceMonitor.canvas m)) in
  label (fst s') = "CPU"%string /\
  Tk.items (snd s') !! 1%nat = Tk.items (ResourceMonitor.canvas m) !! 1%nat.
Proof.
  pose proof (C10_update_frame
                (ResourceMonitor.cpu_bubble ResourceMonitor.fresh)
                (ResourceMonitor.canvas ResourceMonitor.fresh) (Py.Num 75))
    as (Hl & _ & _ & _ & _ & _ & _ & _ & _ & _ & _ & _ & _ & Hit).
  cbv zeta. split.
  - rewrite Hl. vm_compute. reflexivity.
  - apply Hit; vm_compute; discriminate.
Defined.

End UpdateClaims.

(** ** The colour ramps *)

Section Ramps.

Import ResourceBubble.
Local Open Scope Q_scope.

Lemma py_int_floor (x y : Q) : 0 <= x -> x == y -> Py.int x = Qfloor y.
Proof.
  intros H E. rewrite py_int_nonneg by exact H. now apply Qfloor_comp.
Qed.

Lemma floor_between (lo hi : Z) (x : Q) :
  inject_Z lo <= x <= inject_Z hi -> (lo <= Qfloor x <= hi)%Z.
Proof.
  intros [H0 H1]. split.
  - rewrite <- (Qfloor_Z lo). now apply Qfloor_resp_le.
  - rewrite <- (Qfloor_Z hi). now apply Qfloor_resp_le.
Qed.

Lemma floor_byte (x : Q) : 0 <= x <= 255 -> (0 <= Qfloor x <= 255)%Z.
Proof. apply (floor_between 0 255). Qed.

Lemma div_50 (p : Q) : p / 50 == p * (1 # 50).
Proof. reflexivity. Qed.

Lemma div_10 (p : Q) : p / 10 == p * (1 # 10).
Proof. reflexivity. Qed.

Lemma div_30 (p : Q) : p / 30 == p * (1 # 30).
Proof. reflexivity. Qed.

Lemma le_50_true (p : Q) : p <= 50 -> Qle_bool p 50 = true.
Proof. apply Qle_bool_iff. Qed.

Lemma le_50_false (p : Q) : 50 < p -> Qle_bool p 50 = false.
Proof.
  intros H. apply not_true_iff_false. intros E. apply Qle_bool_iff in E.
  exact (Qlt_not_le _ _ H E).
Qed.

(** C3.  The linear ramp at 0, 50 and 100 percent. *)
Theorem C3_linear_ramp_endpoints :
  interpolate_color_rgb 0 = (76, 175, 80)%Z /\
  interpolate_color_rgb 50 = (255, 235, 0)%Z /\
  interpolate_color_rgb 100 = (255, 82, 0)%Z /\
  interpolate_color 0 = "#4caf50"%string /\
  interpolate_color 50 = "#ffeb00"%string /\
  interpolate_color 100 = "#ff5200"%string.
Proof. vm_compute. repeat split. Qed.

Lemma truncation_of_floor (x y : Q) :
  (x == y)%Q -> Binary64.truncation_of y (Qfloor x).
Proof.
  intros E. rewrite (Qfloor_comp x y E).
  pose proof (Qfloor_le y) as Hlo. pose proof (Qlt_floor y) as Hhi.
  rewrite inject_Z_plus in Hhi. change (inject_Z 1) with 1 in Hhi.
  unfold Binary64.truncation_of, Binary64.tolerance.
  set (F := inject_Z (Qfloor y)) in *. split; [reflexivity|]. split; lra.
Qed.

Lemma truncation_of_int (x y : Q) :
  0 <= x -> x == y -> Binary64.truncation_of y (Py.int x).
Proof.
  intros H E. rewrite py_int_nonneg by exact H. now apply truncation_of_floor.
Qed.

(** C4, as the code has it.  For a percentage in [0,100] every channel
    of the linear ramp is the interpolation [start + (end - start) *
    ratio] truncated by [int], not rounded to the nearest integer: it
    is the floor of the interpolation wherever that is not within
    10^-9 of a whole number, and never further from it than the
    interpolation minus one, up to that rounding.  The interpolation
    runs between (76,175,80) and (255,235,0) up to 50 percent, and
    with red 255, green from 235 to 82 and blue from 59 to 0 above;
    every channel is a byte. *)
Theorem C4_linear_channels_round_down (p : Q) :
  0 <= p <= 100 ->
  let '(r, g, b) := interpolate_color_rgb p in
  (p <= 50 ->
   let ratio := p / 50 in
   Binary64.truncation_of (Spec.lerp 76 255 ratio) r /\
   Binary64.truncation_of (Spec.lerp 175 235 ratio) g /\
   Binary64.truncation_of (Spec.lerp 80 0 ratio) b) /\
  (50 < p ->
   let ratio := (p - 50) / 50 in
   r = 255%Z /\
   Binary64.truncation_of (Spec.lerp 235 82 ratio) g /\
   Binary64.truncation_of (Spec.lerp 59 0 ratio) b) /\
  (0 <= r <= 255)%Z /\ (0 <= g <= 255)%Z /\ (0 <= b <= 255)%Z.
Proof.
  intros [H0 H100]. unfold interpolate_color_rgb, Spec.lerp.
  destruct (Qlt_le_dec 50 p) as [Hgt|Hle].
  - rewrite (le_50_false p Hgt).
    assert (R0 : 0 <= (p - 50) * (1 # 50)) by lra.
    assert (R1 : (p - 50) * (1 # 50) <= 1) by lra.
    split; [|split; [|split; [|split]]].
    + intros Hle. exfalso. exact (Qlt_not_le _ _ Hgt Hle).
    + intros _. cbv zeta. split; [reflexivity|]. split.
      * apply truncation_of_int; rewrite div_50; lra.
      * apply truncation_of_int; rewrite div_50; lra.
    + lia.
    + rewrite py_int_nonneg by (rewrite div_50; lra).
      apply floor_byte. rewrite div_50. lra.
    + rewrite py_int_nonneg by (rewrite div_50; lra).
      apply floor_byte. rewrite div_50. lra.
  - rewrite (le_50_true p Hle).
    assert (R0 : 0 <= p * (1 # 50)) by lra.
    assert (R1 : p * (1 # 50) <= 1) by lra.
    split; [|split; [|split; [|split]]].
    + intros _. cbv zeta. split; [|split].
      * apply truncation_of_int; [rewrite div_50; lra | reflexivity].
      * apply truncation_of_int; [rewrite div_50; lra | reflexivity].
      * apply truncation_of_int; rewrite div_50; lra.
    + intros Hgt. exfalso. exact (Qlt_not_le _ _ Hgt Hle).
    + rewrite py_int_nonneg by (rewrite div_50; lra).
      apply floor_byte. rewrite div_50. lra.
    + rewrite py_int_nonneg by (rewrite div_50; lra).
      apply floor_byte. rewrite div_50. lra.
    + rewrite py_int_nonneg by (rewrite div_50; lra).
      apply floor_byte. rewrite div_50. lra.
Qed.

Lemma C4_linear_channels_round_down_witness :
  fst (fst (interpolate_color_rgb 1)) = Qfloor (Spec.lerp 76 255 (1 / 50)).
Proof.
  assert (H : 0 <= 1 <= 100) by (split; discriminate).
  pose proof (C4_linear_channels_round_down 1 H) as W.
  destruct (interpolate_color_rgb 1) as [[r g] b].
  destruct W as (Hlow & _).
  destruct Hlow as ((Hr & _) & _); [discriminate|].
  apply Hr. vm_compute. split; discriminate.
Defined.

(** C4, refuted as stated: at 1 percent the red channel is 79, the
    interpolation 79.58 rounded to the nearest integer is 80. *)
Lemma C4_red_channel_is_not_rounded :
  interpolate_color_rgb 1 = (79, 176, 78)%Z /\
  Spec.channel 76 255 (1 / 50) = 80%Z /\
  fst (fst (interpolate_color_rgb 1)) <> Spec.channel 76 255 (1 / 50).
Proof. vm_compute. repeat split. discriminate. Qed.

End Ramps.

(** ** The temperature ramp *)

Section TemperatureRamp.

Import ResourceBubble.
Local Open Scope Q_scope.

Lemma band_Green (t : Q) : temperature_band t = Green <-> t < 50.
Proof.
  unfold temperature_band. destruct (Py.ltb t 50) eqn:E50.
  - apply py_ltb_lt in E50. tauto.
  - apply py_ltb_ge in E50. split.
    + now destruct (Py.ltb t 60), (Py.ltb t 70).
    + intros H. exfalso. exact (Qlt_not_le _ _ H E50).
Qed.

Lemma band_GreenToYellow (t : Q) :
  temperature_band t = GreenToYellow <-> 50 <= t < 60.
Proof.
  unfold temperature_band.
  destruct (Py.ltb t 50) eqn:E50; [apply py_ltb_lt in E50 | apply py_ltb_ge in E50].
  - split; [discriminate | intros [H _]; exfalso; exact (Qlt_not_le _ _ E50 H)].
  - destruct (Py.ltb t 60) eqn:E60;
      [apply py_ltb_lt in E60 | apply py_ltb_ge in E60].
    + tauto.
    + split.
      * now destruct (Py.ltb t 70).
      * intros [_ H]. exfalso. exact (Qlt_not_le _ _ H E60).
Qed.

Lemma band_YellowToOrange (t : Q) :
  temperature_band t = YellowToOrange <-> 60 <= t < 70.
Proof.
  unfold temperature_band.
  destruct (Py.ltb t 50) eqn:E50; [apply py_ltb_lt in E50 | apply py_ltb_ge in E50].
  - split; [discriminate | intros [H _]; exfalso; lra].
  - destruct (Py.ltb t 60) eqn:E60;
      [apply py_ltb_lt in E60 | apply py_ltb_ge in E60].
    + split; [discriminate | intros [H _]; exfalso; lra].
    + destruct (Py.ltb t 70) eqn:E70;
        [apply py_ltb_lt in E70 | apply py_ltb_ge in E70].
      * tauto.
      * split; [discriminate | intros [_ H]; exfalso; lra].
Qed.

Lemma band_OrangeToRed (t : Q) :
  temperature_band t = OrangeToRed <-> 70 <= t.
Proof.
  unfold temperature_band.
  destruct (Py.ltb t 50) eqn:E50; [apply py_ltb_lt in E50 | apply py_ltb_ge in E50].
  - split; [discriminate | intros H; exfalso; lra].
  - destruct (Py.ltb t 60) eqn:E60;
      [apply py_ltb_lt in E60 | apply py_ltb_ge in E60].
    + split; [discriminate | intros H; exfalso; lra].
    + destruct (Py.ltb t 70) eqn:E70;
        [apply py_ltb_lt in E70 | apply py_ltb_ge in E70].
      * split; [discriminate | intros H; exfalso; lra].
      * tauto.
Qed.

(** C5.  Each band of the temperature ramp is closed below and open
    above; exactly 50 takes the green-to-yellow branch with ratio 0
    and colour (76,175,80), exactly 70 the orange-to-red branch with
    ratio 0 and colour (255,165,59). *)
Theorem C5_temperature_band_boundaries :
  (forall t, temperature_band t = Green <-> t < 50) /\
  (forall t, temperature_band t = GreenToYellow <-> 50 <= t < 60) /\
  (forall t, temperature_band t = YellowToOrange <-> 60 <= t < 70) /\
  (forall t, temperature_band t = OrangeToRed <-> 70 <= t) /\
  (temperature_band 50 = GreenToYellow /\
   temperature_ratio 50 == 0 /\
   interpolate_temperature_rgb 50 = Some (76, 175, 80)%Z /\
   interpolate_temperature_color 50 = "#4caf50"%string) /\
  (temperature_band 70 = OrangeToRed /\
   temperature_ratio 70 == 0 /\
   interpolate_temperature_rgb 70 = Some (255, 165, 59)%Z /\
   interpolate_temperature_color 70 = "#ffa53b"%string).
Proof.
  split; [exact band_Green|]. split; [exact band_GreenToYellow|].
  split; [exact band_YellowToOrange|]. split; [exact band_OrangeToRed|].
  vm_compute. repeat split.
Qed.

Lemma C5_temperature_band_boundaries_witness :
  temperature_band (599 # 10) = GreenToYellow /\
  temperature_band 60 = YellowToOrange.
Proof.
  pose proof C5_temperature_band_boundaries as (_ & Hgy & Hyo & _).
  split.
  - apply Hgy. split; discriminate || reflexivity.
  - apply Hyo. split; discriminate || reflexivity.
Defined.

(** C6, as the code has it.  Below 50 the colour is the constant
    green.  From 50 up to 60, with ratio [(t - 50) / 10], the red and
    blue channels are [76 + 179 * ratio] and [80 - 80 * ratio]
    truncated by [int], and red stays below 255.  From 60 on red is
    255 and blue is [59 * (1 - ratio)] truncated by [int], with ratio
    [(t - 60) / 10] up to 70 and [min((t - 70) / 30, 1)] from 70 on.
    Truncated: the floor wherever the interpolation is not within
    10^-9 of a whole number, not the nearest integer.  From 100 on the
    colour is (255, 82, 0). *)
Theorem C6_temperature_channels (t : Q) :
  (t < 50 -> interpolate_temperature_rgb t = None /\
             interpolate_temperature_color t = "#4CAF50"%string) /\
  (50 <= t < 60 ->
   let ratio := (t - 50) / 10 in
   exists r g b, interpolate_temperature_rgb t = Some (r, g, b) /\
     Binary64.truncation_of (Spec.lerp 76 255 ratio) r /\
     (76 <= r < 255)%Z /\
     Binary64.truncation_of (Spec.lerp 80 0 ratio) b) /\
  (60 <= t < 70 ->
   let ratio := (t - 60) / 10 in
   exists g b, interpolate_temperature_rgb t = Some (255%Z, g, b) /\
     Binary64.truncation_of (59 * (1 - ratio)) b /\ (0 <= b <= 59)%Z) /\
  (70 <= t ->
   let ratio := Py.min ((t - 70) / 30) 1 in
   exists g b, interpolate_temperature_rgb t = Some (255%Z, g, b) /\
     Binary64.truncation_of (59 * (1 - ratio)) b /\ (0 <= b <= 59)%Z) /\
  (100 <= t -> interpolate_temperature_rgb t = Some (255, 82, 0)%Z).
Proof.
  unfold interpolate_temperature_color, interpolate_temperature_rgb,
    temperature_ratio.
  split; [|split; [|split; [|split]]].
  - intros H. apply band_Green in H. now rewrite H.
  - intros H. pose proof H as [H50 H60]. apply band_GreenToYellow in H.
    rewrite H. cbv zeta.
    do 3 eexists. split; [reflexivity|].
    assert (R0 : 0 <= (t - 50) * (1 # 10)) by lra.
    assert (R1 : (t - 50) * (1 # 10) < 1) by lra.
    unfold Spec.lerp. split; [|split].
    + apply truncation_of_int; [rewrite div_10; lra | reflexivity].
    + rewrite py_int_nonneg by (rewrite div_10; lra). split.
      * apply (floor_between 76 255). unfold inject_Z. rewrite div_10. lra.
      * apply Z.lt_nge. intros Hge.
        assert (Hq : inject_Z 255 <= 76 + (255 - 76) * ((t - 50) / 10)).
        { eapply Qle_trans; [|apply Qfloor_le].
          rewrite <- Zle_Qle. exact Hge. }
        rewrite div_10 in Hq. change (inject_Z 255) with 255 in Hq. lra.
    + apply truncation_of_int; rewrite div_10; lra.
  - intros [H60 H70].
    assert (B : temperature_band t = YellowToOrange)
      by (apply band_YellowToOrange; split; assumption).
    rewrite B. cbv zeta.
    do 2 eexists. split; [reflexivity|].
    assert (R0 : 0 <= (t - 60) * (1 # 10)) by lra.
    assert (R1 : (t - 60) * (1 # 10) <= 1) by lra.
    split.
    + apply truncation_of_int; [rewrite div_10; lra | reflexivity].
    + rewrite py_int_nonneg by (rewrite div_10; lra).
      apply (floor_between 0 59). unfold inject_Z. rewrite div_10. lra.
  - intros H70.
    assert (B : temperature_band t = OrangeToRed)
      by (now apply band_OrangeToRed).
    rewrite B. cbv zeta.
    assert (R0 : 0 <= Py.min ((t - 70) / 30) 1)
      by (apply py_min_glb; [rewrite div_30; lra | discriminate]).
    assert (R1 : Py.min ((t - 70) / 30) 1 <= 1) by apply py_min_le_r.
    do 2 eexists. split; [reflexivity|]. split.
    + apply truncation_of_int; [lra | reflexivity].
    + rewrite py_int_nonneg by lra.
      apply (floor_between 0 59). unfold inject_Z. lra.
  - intros H100.
    assert (B : temperature_band t = OrangeToRed)
      by (apply band_OrangeToRed; lra).
    rewrite B.
    assert (M : Py.min ((t - 70) / 30) 1 == 1).
    { apply Qle_antisym; [apply py_min_le_r|].
      apply py_min_glb; [rewrite div_30; lra | discriminate]. }
    rewrite (py_int_floor _ 82) by (rewrite M; lra || discriminate).
    rewrite (py_int_floor _ 0) by (rewrite M; lra || discriminate).
    reflexivity.
Qed.

Lemma C6_temperature_channels_witness :
  interpolate_temperature_rgb 100 = Some (255, 82, 0)%Z /\
  interpolate_temperature_rgb 49 = None /\
  (exists g b, interpolate_temperature_rgb 65 = Some (255%Z, g, b)).
Proof.
  pose proof (C6_temperature_channels 100) as (_ & _ & _ & _ & Hred).
  pose proof (C6_temperature_channels 49) as (Hgreen & _).
  pose proof (C6_temperature_channels 65) as (_ & _ & Hmid & _).
  split; [|split].
  - apply Hred. discriminate.
  - apply Hgreen. reflexivity.
  - destruct Hmid as (g & b & Hrgb & _); [split; [discriminate | reflexivity]|].
    now exists g, b.
Defined.

(** C6, refuted as stated: at 55 degrees, above 50, the red channel is
    165 and the blue channel is 40, which is neither 255 nor
    [round(59 * (1 - ratio))] = 30 (the ratio is 1/2). *)
Lemma C6_red_below_255_at_55 :
  50 < 55 /\
  interpolate_temperature_rgb 55 = Some (165, 205, 40)%Z /\
  temperature_ratio 55 == 1 # 2 /\
  Py.round (59 * (1 - temperature_ratio 55)) = 30%Z /\
  ~ (exists g b, interpolate_temperature_rgb 55 = Some (255%Z, g, b)) /\
  ~ (exists r g, interpolate_temperature_rgb 55
                 = Some (r, g, Py.round (59 * (1 - temperature_ratio 55)))).
Proof.
  vm_compute. repeat split; try discriminate.
  - intros (g & b & H). discriminate.
  - intros (r & g & H). discriminate.
Qed.

End TemperatureRamp.

(** ** The GPU query *)

Section GpuQuery.

Import ResourceMonitor.

Local Abbreviation no_gpu := (Py.None_, Py.None_, Py.None_).

Lemma get_gpu_stats_unavailable
    (getGPUs : Py.M (list string) (list GPUtil.GPU)) (out : list string) :
  get_gpu_stats false getGPUs out = (Py.Ok no_gpu, out).
Proof. reflexivity. Qed.

Ltac run_query H :=
  unfold get_gpu_stats; cbn [negb];
  cbv [mbind M_bind Py.bind Py.try_except];
  rewrite H; try reflexivity.

Lemma get_gpu_stats_raises
    (getGPUs : Py.M (list string) (list GPUtil.GPU)) (out out' : list string)
    (e : Py.exc) :
  getGPUs out = (Py.Raise e, out') ->
  Py.is_Exception e = true ->
  get_gpu_stats true getGPUs out
  = (Py.Ok no_gpu, (out' ++ [("GPU stats error: " ++ Py.exc_str e)%string])%list).
Proof. intros H He. run_query H. rewrite He. reflexivity. Qed.

Lemma get_gpu_stats_empty
    (getGPUs : Py.M (list string) (list GPUtil.GPU)) (out out' : list string) :
  getGPUs out = (Py.Ok [], out') ->
  get_gpu_stats true getGPUs out = (Py.Ok no_gpu, out').
Proof. intros H. run_query H. Qed.

Lemma get_gpu_stats_first
    (getGPUs : Py.M (list string) (list GPUtil.GPU)) (out out' : list string)
    (gpu : GPUtil.GPU) (rest : list GPUtil.GPU) :
  getGPUs out = (Py.Ok (gpu :: rest), out') ->
  get_gpu_stats true getGPUs out
  = (Py.Ok (Py.Num (GPUtil.load gpu * 100), Py.Num (GPUtil.memoryUtil gpu * 100),
            match GPUtil.temperature gpu with
            | Some t => Py.Num t
            | None => Py.None_
            end), out').
Proof. intros H. run_query H. Qed.

(** C8.  The GPU query returns [(None, None, None)] without touching
    the backend when no backend was imported, and when the backend
    call raises an [Exception] it catches it, prints it and returns
    [(None, None, None)]; whenever the backend can only fail with an
    [Exception] the query completes, and the pass of the sampling loop
    in which the backend failed still hands its sample, with the GPU
    fields absent, to the UI. *)
Theorem C8_gpu_query_never_raises
    (getGPUs : Py.M (list string) (list GPUtil.GPU)) (out : list string) :
  (forall e out', getGPUs out = (Py.Raise e, out') -> Py.is_Exception e = true) ->
  get_gpu_stats false getGPUs out = (Py.Ok no_gpu, out) /\
  (forall e out', getGPUs out = (Py.Raise e, out') ->
     get_gpu_stats true getGPUs out
     = (Py.Ok no_gpu, (out' ++ [("GPU stats error: " ++ Py.exc_str e)%string])%list)) /\
  (forall available,
     exists stats, fst (get_gpu_stats available getGPUs out) = Py.Ok stats) /\
  (forall (cpu_percent virtual_memory_percent : Py.M World Q)
          (w w1 w2 : World) (c r : Q) e out',
     cpu_percent w = (Py.Ok c, w1) ->
     virtual_memory_percent w1 = (Py.Ok r, w2) ->
     stdout w2 = out ->
     getGPUs out = (Py.Raise e, out') ->
     update_stats_body true cpu_percent virtual_memory_percent getGPUs w
     = (Py.Ok (),
        MkWorld (out' ++ [("GPU stats error: " ++ Py.exc_str e)%string])%list
                (after_calls w2
                 ++ [(Py.Num c, Py.Num r, Py.None_, Py.None_, Py.None_)])%list)).
Proof.
  intros Hexc. split; [apply get_gpu_stats_unavailable|].
  split; [|split].
  - intros e out' H. apply get_gpu_stats_raises; [exact H|].
    exact (Hexc e out' H).
  - intros [|].
    + destruct (getGPUs out) as [[[|gpu rest]|e] out'] eqn:H.
      * rewrite (get_gpu_stats_empty _ _ _ H). now eexists.
      * rewrite (get_gpu_stats_first _ _ _ _ _ H). now eexists.
      * rewrite (get_gpu_stats_raises _ _ _ _ H (Hexc e out' eq_refl)).
        now eexists.
    + rewrite get_gpu_stats_unavailable. now eexists.
  - intros cpu_percent virtual_memory_percent w w1 w2 c r e out' Hc Hr Hout H.
    unfold update_stats_body.
    cbv [mbind M_bind Py.bind Py.try_except on_stdout Py.zoom].
    rewrite Hc, Hr, Hout.
    rewrite (get_gpu_stats_raises _ _ _ _ H (Hexc e out' H)).
    reflexivity.
Qed.

Lemma C8_gpu_query_never_raises_witness :
  let getGPUs : Py.M (list string) (list GPUtil.GPU) :=
    Py.raise (Py.Exc (Py.Exception_ "ValueError") "no GPU detected") in
  get_gpu_stats true getGPUs []
  = (Py.Ok no_gpu, ["GPU stats error: no GPU detected"]).
Proof.
  intros getGPUs.
  assert (Hexc : forall e out', getGPUs [] = (Py.Raise e, out') ->
                                Py.is_Exception e = true).
  { intros e out' H. injection H as <- _. reflexivity. }
  destruct (C8_gpu_query_never_raises getGPUs [] Hexc) as (_ & Hraise & _).
  exact (Hraise _ _ eq_refl).
Defined.

End GpuQuery.

(** ** Routing a sample to the bubbles *)

Section Dashboard.

Import ResourceMonitor.
Local Open Scope Q_scope.

Lemma bind_Ok {St A B} (f : Py.M St A) (k : A -> Py.M St B) (s : St) (a : A) :
  fst (f s) = Py.Ok a -> (f ≫= k) s = k a (snd (f s)).
Proof.
  unfold mbind, M_bind, Py.bind. destruct (f s) as [[a'|e] s']; cbn.
  - now intros [= ->].
  - discriminate.
Qed.

Lemma snd_call {A} (a : bubble_attr) (f : Py.M ResourceBubble.state A) (m : t) :
  snd (call a f m)
  = set_canvas (snd (snd (f (bubble a m, canvas m))))
      (set_bubble a (fst (snd (f (bubble a m, canvas m)))) m).
Proof.
  unfold call, Py.zoom. now destruct (f (bubble a m, canvas m)) as [r [b c]].
Qed.

Lemma fst_call {A} (a : bubble_attr) (f : Py.M ResourceBubble.state A) (m : t) :
  fst (call a f m) = fst (f (bubble a m, canvas m)).
Proof.
  unfold call, Py.zoom. now destruct (f (bubble a m, canvas m)) as [r [b c]].
Qed.

Lemma bubble_set_same (a : bubble_attr) (b : ResourceBubble.t)
    (c : Tk.Canvas) (m : t) :
  bubble a (set_canvas c (set_bubble a b m)) = b.
Proof. now destruct a. Qed.

Lemma bubble_set_other (a a' : bubble_attr) (b : ResourceBubble.t)
    (c : Tk.Canvas) (m : t) :
  a' <> a -> bubble a' (set_canvas c (set_bubble a b m)) = bubble a' m.
Proof. destruct a, a'; intros H; reflexivity || now destruct H. Qed.

Lemma canvas_set (a : bubble_attr) (b : ResourceBubble.t)
    (c : Tk.Canvas) (m : t) :
  canvas (set_canvas c (set_bubble a b m)) = c.
Proof. now destruct a. Qed.

(** The canvas after [update], whatever the outcome: items keep
    existing. *)
Lemma update_keeps_items (b : ResourceBubble.t) (c : Tk.Canvas)
    (v : Py.value) (id : nat) :
  is_Some (Tk.items c !! id) ->
  is_Some (Tk.items (snd (snd (ResourceBubble.update v (b, c)))) !! id).
Proof.
  intros H. destruct v as [|q].
  - now rewrite update_None.
  - destruct (Qeq_bool (ResourceBubble.max_value b) 0) eqn:E.
    + now rewrite update_Num_zero.
    + rewrite update_Num_ok by exact E. cbv zeta. cbn [snd].
      unfold ResourceBubble.drawn. cbn [Tk.items].
      rewrite !lookup_alter_is_Some. exact H.
Qed.

(** One call [self.<a>_bubble.update(v)] seen from the monitor. *)
Lemma call_update_frame (a : bubble_attr) (m : t) (v : Py.value) :
  let m' := snd (call a (ResourceBubble.update v) m) in
  (forall a', a' <> a -> bubble a' m' = bubble a' m) /\
  ResourceBubble.max_value (bubble a m') = ResourceBubble.max_value (bubble a m) /\
  item_ids (bubble a m') = item_ids (bubble a m) /\
  (forall id, id ∉ item_ids (bubble a m) ->
     Tk.items (canvas m') !! id = Tk.items (canvas m) !! id) /\
  (forall id, is_Some (Tk.items (canvas m) !! id) ->
     is_Some (Tk.items (canvas m') !! id)).
Proof.
  cbv zeta. rewrite snd_call.
  pose proof (update_frame (bubble a m) (canvas m) v) as F.
  cbv zeta in F.
  destruct F as (_ & _ & Hmax & _ & _ & _ & _ & _ & _ & Hfr & _ & Hvt & _ & Hoth).
  split; [|split; [|split; [|split]]].
  - intros a' Ha. now apply bubble_set_other.
  - now rewrite bubble_set_same.
  - rewrite bubble_set_same. unfold item_ids. now rewrite Hfr, Hvt.
  - intros id Hid. rewrite canvas_set. apply Hoth.
    + intros ->. apply Hid. unfold item_ids. set_solver.
    + intros ->. apply Hid. unfold item_ids. set_solver.
  - intros id Hid. rewrite canvas_set. now apply update_keeps_items.
Qed.

Lemma call_update_ids (a a0 : bubble_attr) (m : t) (v : Py.value) :
  let m' := snd (call a (ResourceBubble.update v) m) in
  item_ids (bubble a0 m') = item_ids (bubble a0 m) /\
  ResourceBubble.max_value (bubble a0 m')
  = ResourceBubble.max_value (bubble a0 m).
Proof.
  destruct (call_update_frame a m v) as (Hoth & Hmax & Hids & _).
  cbv zeta. destruct (decide (a0 = a)) as [->|Hne].
  - now split.
  - now rewrite (Hoth a0 Hne).
Qed.

Lemma well_formed_call (a : bubble_attr) (m : t) (v : Py.value) :
  well_formed m -> well_formed (snd (call a (ResourceBubble.update v) m)).
Proof.
  intros [Hown Hsep].
  destruct (call_update_frame a m v) as (_ & _ & _ & _ & Hkeep).
  split.
  - intros a0. destruct (call_update_ids a a0 m v) as [Hids Hmax].
    destruct (Hown a0) as (Hpos & Hf & Hv).
    unfold owns_items. rewrite Hmax.
    injection Hids as -> ->. repeat split; [exact Hpos | |]; now apply Hkeep.
  - intros a1 a2 id Hne.
    destruct (call_update_ids a a1 m v) as [-> _].
    destruct (call_update_ids a a2 m v) as [-> _].
    now apply Hsep.
Qed.

Lemma call_update_Ok (a : bubble_attr) (m : t) (v : Q) :
  well_formed m ->
  fst (call a (ResourceBubble.update (Py.Num v)) m) = Py.Ok ().
Proof.
  intros [Hown _]. destruct (Hown a) as (Hpos & _).
  rewrite fst_call, update_Num_ok by now apply Qeq_bool_pos.
  reflexivity.
Qed.

Lemma shows_zero_call (a : bubble_attr) (m : t) :
  well_formed m ->
  shows_zero a (snd (call a (ResourceBubble.update (Py.Num 0)) m)).
Proof.
  intros [Hown _]. destruct (Hown a) as (Hpos & Hf & Hv).
  destruct (update_zero (bubble a m) (canvas m) Hpos)
    as (_ & Hval & Hratio & Hfill & Htext).
  destruct (update_frame (bubble a m) (canvas m) (Py.Num 0))
    as (_ & Hunit & _ & Htemp & _).
  destruct (Hfill Hf) as [Hext Hcol]. specialize (Htext Hv).
  unfold shows_zero. rewrite snd_call, bubble_set_same, canvas_set.
  cbv zeta in *. rewrite Hunit, Htemp.
  destruct (snd (ResourceBubble.update (Py.Num 0) (bubble a m, canvas m)))
    as [b' c'].
  now repeat split.
Qed.

Lemma shows_zero_kept (a a' : bubble_attr) (m : t) (v : Py.value) :
  a <> a' -> well_formed m -> shows_zero a m ->
  shows_zero a (snd (call a' (ResourceBubble.update v) m)).
Proof.
  intros Hne [_ Hsep] Hz.
  destruct (call_update_frame a' m v) as (Hoth & _ & _ & Hitems & _).
  cbv zeta in Hoth, Hitems.
  assert (Hf : Tk.items (canvas (snd (call a' (ResourceBubble.update v) m)))
               !! ResourceBubble.fill_rect (bubble a m)
               = Tk.items (canvas m) !! ResourceBubble.fill_rect (bubble a m)).
  { apply Hitems, (Hsep a a' _ Hne). unfold item_ids. set_solver. }
  assert (Hv : Tk.items (canvas (snd (call a' (ResourceBubble.update v) m)))
               !! ResourceBubble.value_text (bubble a m)
               = Tk.items (canvas m) !! ResourceBubble.value_text (bubble a m)).
  { apply Hitems, (Hsep a a' _ Hne). unfold item_ids. set_solver. }
  unfold shows_zero in *. rewrite (Hoth a Hne).
  unfold ResourceBubble.fill_extent, ResourceBubble.fill_color,
    ResourceBubble.display_text in *.
  cbn [fst snd] in *. rewrite Hf, Hv. exact Hz.
Qed.

(** [update_bubbles] replaces an absent reading by [0]. *)
Lemma route_absent (a : bubble_attr) (v : Py.value) :
  match v with
  | Py.Num _ => call a (ResourceBubble.update v)
  | Py.None_ => call a (ResourceBubble.update (Py.Num 0))
  end
  = call a (ResourceBubble.update
              (Py.Num match v with Py.Num q => q | Py.None_ => 0 end)).
Proof. now destruct v. Qed.

Lemma item_ids_fresh (a : bubble_attr) :
  item_ids (bubble a fresh)
  = match a with
    | Cpu => [2; 4] | Ram => [6; 8] | Gpu => [10; 12]
    | Vram => [14; 16] | Temp => [18; 20]
    end%nat.
Proof. destruct a; vm_compute; reflexivity. Qed.

Lemma owns_items_fresh (a : bubble_attr) : owns_items a fresh.
Proof.
  unfold owns_items.
  destruct a; vm_compute; (split; [reflexivity|split; eexists; reflexivity]).
Qed.

Lemma well_formed_fresh : well_formed fresh.
Proof.
  split; [exact owns_items_fresh|].
  intros a a' id Hne. rewrite !item_ids_fresh.
  destruct a, a'; try (now destruct Hne);
    rewrite !elem_of_cons, !elem_of_nil; lia.
Qed.

(** C7.  On the monitor as constructed, the sample (75, 40, None,
    None, None) is applied without error: the CPU bubble is filled to
    three quarters, in the colour the yellow-to-red branch gives for 75
    percent, and the GPU, VRAM and temperature bubbles show zero in
    green.  On every monitor laid out as [create_widgets] does, for
    every sample whose readings are in the range of their bubbles,
    [update_bubbles] completes, and each of the GPU, VRAM and
    temperature readings that is absent shows as zero. *)
Theorem C7_sample_with_absent_gpu :
  (let m' := snd (update_bubbles (Py.Num 75) (Py.Num 40)
                    Py.None_ Py.None_ Py.None_ fresh) in
   let cpu := (cpu_bubble m', canvas m') in
   fst (update_bubbles (Py.Num 75) (Py.Num 40)
          Py.None_ Py.None_ Py.None_ fresh) = Py.Ok () /\
   ResourceBubble.fill_ratio (cpu_bubble m') == 3 # 4 /\
   ResourceBubble.fill_extent cpu
   = Some (Qred ((3 # 4) * ResourceBubble.width (cpu_bubble m'))) /\
   Qle_bool (ResourceBubble.fill_ratio (cpu_bubble m') * 100) 50 = false /\
   ResourceBubble.interpolate_color_rgb 75 = (255, 158, 29)%Z /\
   ResourceBubble.fill_color cpu
   = Some (ResourceBubble.hex_color (255, 158, 29)%Z) /\
   ResourceBubble.display_text cpu = Some "75%"%string /\
   shows_zero Gpu m' /\ shows_zero Vram m' /\ shows_zero Temp m') /\
  (forall (m : t) (c r : Q) (g v t : Py.value),
     well_formed m ->
     Reading.sample_in_range m c r g v t ->
     let m' := snd (update_bubbles (Py.Num c) (Py.Num r) g v t m) in
     fst (update_bubbles (Py.Num c) (Py.Num r) g v t m) = Py.Ok () /\
     (g = Py.None_ -> shows_zero Gpu m') /\
     (v = Py.None_ -> shows_zero Vram m') /\
     (t = Py.None_ -> shows_zero Temp m')).
Proof.
  split.
  - unfold shows_zero. vm_compute. repeat split.
  - intros m c r g v t W0 _. unfold update_bubbles.
    rewrite !route_absent.
    set (qg := match g with Py.Num q => q | Py.None_ => 0 end).
    set (qv := match v with Py.Num q => q | Py.None_ => 0 end).
    set (qt := match t with Py.Num q => q | Py.None_ => 0 end).
    rewrite (bind_Ok _ _ _ ()) by now apply call_update_Ok.
    set (m1 := snd (call Cpu (ResourceBubble.update (Py.Num c)) m)).
    assert (W1 : well_formed m1) by now apply well_formed_call.
    rewrite (bind_Ok _ _ _ ()) by now apply call_update_Ok.
    set (m2 := snd (call Ram (ResourceBubble.update (Py.Num r)) m1)).
    assert (W2 : well_formed m2) by now apply well_formed_call.
    rewrite (bind_Ok _ _ _ ()) by now apply call_update_Ok.
    set (m3 := snd (call Gpu (ResourceBubble.update (Py.Num qg)) m2)).
    assert (W3 : well_formed m3) by now apply well_formed_call.
    rewrite (bind_Ok _ _ _ ()) by now apply call_update_Ok.
    set (m4 := snd (call Vram (ResourceBubble.update (Py.Num qv)) m3)).
    assert (W4 : well_formed m4) by now apply well_formed_call.
    cbv zeta. split; [now apply call_update_Ok|]. split; [|split].
    + intros ->. apply shows_zero_kept; [discriminate | exact W4 |].
      apply shows_zero_kept; [discriminate | exact W3 |].
      now apply shows_zero_call.
    + intros ->. apply shows_zero_kept; [discriminate | exact W4 |].
      now apply shows_zero_call.
    + intros ->. now apply shows_zero_call.
Qed.

Lemma C7_sample_with_absent_gpu_witness :
  shows_zero Temp
    (snd (update_bubbles (Py.Num 12) (Py.Num 34) (Py.Num 56) (Py.Num 78)
            Py.None_ fresh)).
Proof.
  destruct C7_sample_with_absent_gpu as [_ H].
  destruct (H fresh 12 34 (Py.Num 56) (Py.Num 78) Py.None_ well_formed_fresh)
    as (_ & _ & _ & Ht).
  - intros a. destruct a; vm_compute; repeat split; discriminate.
  - exact (Ht eq_refl).
Defined.

End Dashboard.

(** ** Number formatting *)

Section Formatting.

Local Open Scope Q_scope.

Lemma digit_char_decimal (d : N) :
  (d < 10)%N -> Py.is_digit (Py.digit_char d) = true.
Proof.
  intros H.
  assert (d = 0 \/ d = 1 \/ d = 2 \/ d = 3 \/ d = 4 \/ d = 5 \/ d = 6
          \/ d = 7 \/ d = 8 \/ d = 9)%N as E by lia.
  repeat destruct E as [->|E]; try reflexivity. now subst.
Qed.

Lemma to_digits_all_digits (fuel : nat) (n : N) (acc : string) :
  Py.all_digits acc = true ->
  Py.all_digits (Py.to_digits 10 fuel n acc) = true.
Proof.
  revert n acc. induction fuel as [|fuel IH]; intros n acc Hacc; cbn.
  - exact Hacc.
  - assert (Hd : Py.all_digits (String (Py.digit_char (n mod 10)) acc) = true).
    { cbn. rewrite Hacc, digit_char_decimal; [reflexivity|].
      now apply N.mod_lt. }
    destruct (n / 10 =? 0)%N; [exact Hd | now apply IH].
Qed.

Lemma to_digits_nonempty (fuel : nat) (n : N) (acc : string) :
  Py.to_digits 10 (S fuel) n acc <> "".
Proof.
  revert n acc. induction fuel as [|fuel IH]; intros n acc.
  - cbn. now destruct (n / 10 =? 0)%N.
  - change (Py.to_digits 10 (S (S fuel)) n acc)
      with (let acc' := String (Py.digit_char (n mod 10)) acc in
            if (n / 10 =? 0)%N then acc'
            else Py.to_digits 10 (S fuel) (n / 10) acc').
    cbv zeta. destruct (n / 10 =? 0)%N; [discriminate | apply IH].
Qed.

Lemma numeral_decimal (n : N) :
  Py.all_digits (Py.numeral 10 n) = true /\ Py.numeral 10 n <> "".
Proof.
  split; [now apply to_digits_all_digits | apply to_digits_nonempty].
Qed.

Lemma round_near (x : Q) : Qabs (x - inject_Z (Py.round x)) <= 1 # 2.
Proof.
  pose proof (Qfloor_le x) as Hlo. pose proof (Qlt_floor x) as Hhi.
  rewrite inject_Z_plus in Hhi. change (inject_Z 1) with 1 in Hhi.
  unfold Py.round. apply Qabs_Qle_condition.
  destruct (Qcompare (x - inject_Z (Qfloor x)) (1 # 2)) eqn:E.
  - apply Qeq_alt in E.
    destruct (Z.even (Qfloor x)); [|rewrite inject_Z_plus];
      change (inject_Z 1) with 1; set (F := inject_Z (Qfloor x)) in *;
      split; lra.
  - apply Qlt_alt in E. set (F := inject_Z (Qfloor x)) in *. split; lra.
  - apply Qgt_alt in E. rewrite inject_Z_plus. change (inject_Z 1) with 1.
    set (F := inject_Z (Qfloor x)) in *. split; lra.
Qed.

Lemma round_nonneg (x : Q) : 0 <= x -> (0 <= Py.round x)%Z.
Proof.
  intros H. assert (0 <= Qfloor x)%Z as Hf
      by (rewrite <- (Qfloor_Z 0); now apply Qfloor_resp_le).
  unfold Py.round.
  destruct (Qcompare _ _); [destruct (Z.even _)| |]; lia.
Qed.

Lemma int_truncates (x : Q) :
  Qabs (inject_Z (Py.int x)) <= Qabs x /\ Qabs (x - inject_Z (Py.int x)) < 1.
Proof.
  destruct (Qlt_le_dec x 0) as [Hneg|Hpos].
  - rewrite (py_int_neg x Hneg).
    pose proof (Qle_ceiling x) as Hlo. pose proof (Qceiling_lt x) as Hhi.
    assert (Qceiling x <= 0)%Z as Hc.
    { rewrite <- (Qceiling_Z 0). apply Qceiling_resp_le.
      now apply Qlt_le_weak. }
    rewrite Zle_Qle in Hc. change (inject_Z 0) with 0 in Hc.
    unfold Z.sub in Hhi. rewrite inject_Z_plus, inject_Z_opp in Hhi.
    change (inject_Z 1) with 1 in Hhi.
    set (C := inject_Z (Qceiling x)) in *. split.
    + rewrite (Qabs_neg C Hc), (Qabs_neg x) by lra. lra.
    + apply Qabs_Qlt_condition. split; lra.
  - rewrite (py_int_nonneg x Hpos).
    pose proof (Qfloor_le x) as Hlo. pose proof (Qlt_floor x) as Hhi.
    assert (0 <= Qfloor x)%Z as Hf
        by (rewrite <- (Qfloor_Z 0); now apply Qfloor_resp_le).
    rewrite Zle_Qle in Hf. change (inject_Z 0) with 0 in Hf.
    rewrite inject_Z_plus in Hhi. change (inject_Z 1) with 1 in Hhi.
    set (F := inject_Z (Qfloor x)) in *. split.
    + rewrite (Qabs_pos F Hf), (Qabs_pos x Hpos). lra.
    + apply Qabs_Qlt_condition. split; lra.
Qed.

Lemma Qeq_bool_nonzero (m : Q) : ~ m == 0 -> Qeq_bool m 0 = false.
Proof.
  intros H. apply not_true_iff_false. intros E. now apply Qeq_bool_iff in E.
Qed.

End Formatting.

(** ** The value text *)

Section ValueText.

Import ResourceBubble.
Local Open Scope Q_scope.

(** C9, as the code has it.  After [update] with a reading in the
    range of the bubble (a positive [max_value] up to 10^15, a reading
    not below a fifth of it under zero), the value text is an
    optional minus sign, a decimal numeral made of digits only, and
    the unit.  For the unit "°C" the numeral is the stored value
    truncated toward zero; for any other unit it is the magnitude of
    the stored value rounded to the nearest integer, ties to even,
    with the minus sign when the value is negative and without it
    when the value is positive. *)
Theorem C9_value_text_is_an_integer (b : t) (c : Tk.Canvas) (v : Q) :
  Reading.in_range b v ->
  is_Some (Tk.items c !! value_text b) ->
  let s' := snd (update (Py.Num v) (b, c)) in
  let cur := value (fst s') in
  fst (update (Py.Num v) (b, c)) = Py.Ok () /\
  exists (neg : bool) (n : N),
    display_text s'
    = Some (Py.sign neg ++ Py.numeral 10 n ++ unit b)%string /\
    Py.all_digits (Py.numeral 10 n) = true /\
    Py.numeral 10 n <> ""%string /\
    (unit b = "°C"%string ->
     Py.int cur = (if neg then - Z.of_N n else Z.of_N n)%Z /\
     Qabs (inject_Z (Py.int cur)) <= Qabs cur /\
     Qabs (cur - inject_Z (Py.int cur)) < 1) /\
    (unit b <> "°C"%string ->
     (cur < 0 -> neg = true) /\ (0 < cur -> neg = false) /\
     Z.of_N n = Py.round (Qabs cur) /\
     Qabs (Qabs cur - inject_Z (Z.of_N n)) <= 1 # 2).
Proof.
  intros (Hmax & _) [it Hit]. cbv zeta.
  rewrite update_Num_ok by now apply Qeq_bool_pos.
  cbn [fst snd]. split; [reflexivity|].
  set (b' := with_value b (Py.min v (max_value b))).
  unfold display_text. cbn [fst snd].
  change (value_text b) with (value_text b') in Hit.
  rewrite (drawn_text _ _ _ Hit). unfold render_text.
  change (unit b') with (unit b).
  destruct (String.eqb_spec (unit b) "°C") as [E|E].
  - exists (Py.int (value b') <? 0)%Z, (Z.abs_N (Py.int (value b'))).
    destruct (numeral_decimal (Z.abs_N (Py.int (value b')))) as [Hd Hn].
    split; [|split; [exact Hd|split; [exact Hn|split]]].
    + unfold Py.str_int. now destruct (Py.int (value b') <? 0)%Z.
    + intros _. split; [|apply int_truncates].
      rewrite N2Z.inj_abs_N.
      destruct (Z.ltb_spec (Py.int (value b')) 0); lia.
    + intros H. now destruct H.
  - exists (Py.ltb (value b') 0), (Z.abs_N (Py.round (Qabs (value b')))).
    destruct (numeral_decimal (Z.abs_N (Py.round (Qabs (value b')))))
      as [Hd Hn].
    assert (Hr : Z.of_N (Z.abs_N (Py.round (Qabs (value b'))))
                 = Py.round (Qabs (value b'))).
    { rewrite N2Z.inj_abs_N. apply Z.abs_eq, round_nonneg, Qabs_nonneg. }
    split; [|split; [exact Hd|split; [exact Hn|split]]].
    + unfold Py.format_0f. now destruct (Py.ltb (value b') 0).
    + intros H. now destruct (E H).
    + intros _. split; [now intros H; apply py_ltb_lt|]. split.
      { intros H. destruct (Py.ltb (value b') 0) eqn:L; [|reflexivity].
        apply py_ltb_lt in L. exfalso.
        exact (Qlt_irrefl _ (Qlt_trans _ _ _ H L)). }
      split; [exact Hr|]. rewrite Hr. apply round_near.
Qed.

Lemma C9_value_text_is_an_integer_witness :
  fst (update (Py.Num (425 # 10))
         (ResourceMonitor.cpu_bubble ResourceMonitor.fresh,
          ResourceMonitor.canvas ResourceMonitor.fresh)) = Py.Ok ().
Proof.
  apply (C9_value_text_is_an_integer
           (ResourceMonitor.cpu_bubble ResourceMonitor.fresh)
           (ResourceMonitor.canvas ResourceMonitor.fresh) (425 # 10)).
  - vm_compute. repeat split; discriminate.
  - vm_compute. eexists; reflexivity.
Defined.

(** C9, refuted as stated: the temperature bubble shows 67.9 degrees
    as "67°C", the nearest integer is 68; and the CPU bubble shows
    -0.4 percent as "-0%". *)
Lemma C9_temperature_text_truncates :
  let m := ResourceMonitor.fresh in
  let shown a v :=
    display_text
      (snd (update (Py.Num v)
              (ResourceMonitor.bubble a m, ResourceMonitor.canvas m))) in
  shown ResourceMonitor.Temp (679 # 10) = Some "67°C"%string /\
  Py.round (679 # 10) = 68%Z /\
  shown ResourceMonitor.Temp (679 # 10)
  <> Some (Py.str_int (Py.round (679 # 10)) ++ "°C")%string /\
  shown ResourceMonitor.Cpu (- (4 # 10)) = Some "-0%"%string.
Proof. vm_compute. repeat split. discriminate. Qed.

End ValueText.

(** ** Successive updates *)

Section SuccessiveUpdates.

Import ResourceBubble.
Local Open Scope Q_scope.

Lemma with_setters_absorb (cs1 cs2 : list Q) (f1 f2 s1 s2 : string)
    (it : Tk.item) :
  Tk.with_text s2 (Tk.with_fill f2 (Tk.with_coords cs2
    (Tk.with_text s1 (Tk.with_fill f1 (Tk.with_coords cs1 it)))))
  = Tk.with_text s2 (Tk.with_fill f2 (Tk.with_coords cs2 it)).
Proof. reflexivity. Qed.

(** Drawing a bubble again replaces what was drawn for it. *)
Lemma drawn_drawn (b1 b2 : t) (c : Tk.Canvas) :
  fill_rect b1 = fill_rect b2 -> value_text b1 = value_text b2 ->
  drawn b2 (drawn b1 c) = drawn b2 c.
Proof.
  intros Hf Hv. unfold drawn. cbn [Tk.items Tk.next_id]. f_equal.
  rewrite Hf, Hv. set (fr := fill_rect b2). set (vt := value_text b2).
  apply map_eq. intros i. rewrite !lookup_alter.
  repeat case_decide; simplify_eq;
    repeat match goal with
      | |- context [Tk.items c !! ?k] => destruct (Tk.items c !! k)
      end; reflexivity.
Qed.

(** The last reading wins: whatever reading was given before, an
    [update(v2)] with a reading in range behaves and leaves the bubble
    and the canvas exactly as [update(v2)] alone does; and repeating
    it changes nothing. *)
Theorem update_overwrites (b : t) (c : Tk.Canvas) (v1 v2 : Q) :
  Reading.in_range b v2 ->
  update (Py.Num v2) (snd (update (Py.Num v1) (b, c)))
  = update (Py.Num v2) (b, c) /\
  snd (update (Py.Num v2) (snd (update (Py.Num v2) (b, c))))
  = snd (update (Py.Num v2) (b, c)).
Proof.
  intros _.
  assert (H : forall u w,
             update (Py.Num w) (snd (update (Py.Num u) (b, c)))
             = update (Py.Num w) (b, c)).
  { intros u w. destruct (Qeq_bool (max_value b) 0) eqn:E.
    - rewrite (update_Num_zero b c u E). cbn [snd].
      rewrite update_Num_zero by exact E.
      now rewrite (update_Num_zero b c w E).
    - rewrite (update_Num_ok b c u E). cbv zeta. cbn [snd].
      rewrite update_Num_ok by exact E.
      rewrite (update_Num_ok b c w E). cbv zeta.
      cbn [with_value max_value]. f_equal. f_equal.
      now apply drawn_drawn. }
  split; [apply H | now rewrite H].
Qed.

Lemma update_overwrites_witness :
  update (Py.Num 30)
    (snd (update (Py.Num 80)
            (ResourceMonitor.cpu_bubble ResourceMonitor.fresh,
             ResourceMonitor.canvas ResourceMonitor.fresh)))
  = update (Py.Num 30)
      (ResourceMonitor.cpu_bubble ResourceMonitor.fresh,
       ResourceMonitor.canvas ResourceMonitor.fresh).
Proof.
  apply (update_overwrites
           (ResourceMonitor.cpu_bubble ResourceMonitor.fresh)
           (ResourceMonitor.canvas ResourceMonitor.fresh) 80 30).
  vm_compute. repeat split; discriminate.
Defined.

End SuccessiveUpdates.

(** ** The fill and the outcome of [update] *)

Section FillAndOutcome.

Import ResourceBubble.
Local Open Scope Q_scope.

Lemma ratio_bounds (v m : Q) :
  0 < m -> 0 <= v -> 0 <= Py.min v m / m <= 1.
Proof.
  intros Hm Hv. split.
  - apply Qle_shift_div_l; [exact Hm|]. rewrite Qmult_0_l.
    apply py_min_glb; [exact Hv | now apply Qlt_le_weak].
  - apply Qle_shift_div_r; [exact Hm|]. rewrite Qmult_1_l.
    apply py_min_le_r.
Qed.

Lemma ratio_full (v m : Q) : 0 < m -> m <= v -> Py.min v m / m == 1.
Proof.
  intros Hm Hv. apply Qle_antisym.
  - apply Qle_shift_div_r; [exact Hm|]. rewrite Qmult_1_l. apply py_min_le_r.
  - apply Qle_shift_div_l; [exact Hm|]. rewrite Qmult_1_l.
    apply py_min_glb; [exact Hv | apply Qle_refl].
Qed.

(** For a non-negative reading in range, on a bubble placed on whole
    pixels, the fill stays inside the bubble: the fill ratio is
    between 0 and 1, the fill rectangle starts at the bubble's left
    edge and ends between that edge and the right edge, at the left
    edge for a zero reading and at the right edge for a reading at or
    above [max_value]. *)
Theorem update_fill_within_bubble (b : t) (c : Tk.Canvas) (v : Q) :
  Reading.in_range b v -> 0 <= v ->
  Reading.whole (x b) -> Reading.whole (width b) -> 0 <= width b ->
  is_Some (Tk.items c !! fill_rect b) ->
  let s' := snd (update (Py.Num v) (b, c)) in
  0 <= fill_ratio (fst s') <= 1 /\
  (max_value b <= v -> fill_ratio (fst s') == 1) /\
  exists x1 y1 x2 y2,
    Tk.item_coords <$> Tk.items (snd s') !! fill_rect b
    = Some [x1; y1; x2; y2] /\
    x1 = x b /\ x b <= x2 <= x b + width b /\
    (max_value b <= v -> x2 == x b + width b) /\
    (v == 0 -> x2 == x b).
Proof.
  intros (Hm & _) Hv _ _ Hw [it Hit]. cbv zeta.
  rewrite update_Num_ok by now apply Qeq_bool_pos.
  cbn [fst snd]. set (b' := with_value b (Py.min v (max_value b))).
  unfold fill_ratio. cbn [value max_value with_value b'].
  pose proof (ratio_bounds v (max_value b) Hm Hv) as [R0 R1].
  split; [now split|]. split; [now apply ratio_full|].
  change (fill_rect b) with (fill_rect b') in Hit.
  change (fill_rect b) with (fill_rect b').
  destruct (drawn_fill _ _ _ Hit) as (it' & -> & Hc & _).
  cbn [fmap option_fmap option_map]. rewrite Hc. unfold render_coords.
  cbn [x value max_value width with_value b'].
  do 4 eexists. split; [reflexivity|]. split; [reflexivity|].
  set (ratio := Py.min v (max_value b) / max_value b) in *.
  assert (P0 : 0 <= ratio * width b) by now apply Qmult_le_0_compat.
  assert (P1 : ratio * width b <= width b).
  { rewrite <- (Qmult_1_l (width b)) at 2. now apply Qmult_le_compat_r. }
  split; [split; lra|]. split.
  - intros Hfull. unfold ratio. rewrite (ratio_full v (max_value b) Hm Hfull).
    ring.
  - intros Hzero. unfold ratio.
    assert (Z : Py.min v (max_value b) == 0).
    { apply Qle_antisym.
      - rewrite <- Hzero. apply py_min_le_l.
      - apply py_min_glb; [exact Hv | now apply Qlt_le_weak]. }
    rewrite Z. unfold Qdiv. rewrite !Qmult_0_l. ring.
Qed.

Lemma update_fill_within_bubble_witness :
  fill_ratio
    (fst (snd (update (Py.Num 250)
                 (ResourceMonitor.ram_bubble ResourceMonitor.fresh,
                  ResourceMonitor.canvas ResourceMonitor.fresh)))) == 1.
Proof.
  destruct (update_fill_within_bubble
              (ResourceMonitor.ram_bubble ResourceMonitor.fresh)
              (ResourceMonitor.canvas ResourceMonitor.fresh) 250)
    as (_ & Hfull & _).
  - vm_compute. repeat split; discriminate.
  - vm_compute. discriminate.
  - vm_compute. split; [reflexivity | discriminate].
  - vm_compute. split; [reflexivity | discriminate].
  - vm_compute. discriminate.
  - vm_compute. eexists; reflexivity.
  - apply Hfull. vm_compute. discriminate.
Defined.

(** The two outcomes of [update] with a number.  When [max_value] is
    zero the call raises [ZeroDivisionError] after the assignment to
    [self.value] and before anything is drawn: the value is replaced,
    the canvas is as it was.  For a reading in range the call
    completes. *)
Theorem update_raises_on_zero_max (b : t) (c : Tk.Canvas) (v : Q) :
  (max_value b == 0 ->
   exists e, fst (update (Py.Num v) (b, c)) = Py.Raise e /\
             Py.exc_type e = Py.ZeroDivisionError /\
             snd (update (Py.Num v) (b, c))
             = (with_value b (Py.min v (max_value b)), c)) /\
  (Reading.in_range b v -> fst (update (Py.Num v) (b, c)) = Py.Ok ()).
Proof.
  split.
  - intros H. apply Qeq_bool_iff in H.
    rewrite update_Num_zero by exact H. cbn [fst snd].
    eexists. repeat split.
  - intros (Hm & _). now rewrite update_Num_ok by now apply Qeq_bool_pos.
Qed.

Lemma update_raises_on_zero_max_witness :
  let b := Mk 0 0 10 10 "idle" 0 "%" 7 false 1 2 3 4 in
  fst (update (Py.Num 5) (b, Tk.new_canvas)) <> Py.Ok () /\
  value (fst (snd (update (Py.Num 5) (b, Tk.new_canvas)))) = 0 /\
  fst (update (Py.Num 5)
         (ResourceMonitor.gpu_bubble ResourceMonitor.fresh,
          ResourceMonitor.canvas ResourceMonitor.fresh)) = Py.Ok ().
Proof.
  intros b.
  destruct (update_raises_on_zero_max b Tk.new_canvas 5) as [Hzero _].
  destruct (Hzero (Qeq_refl 0)) as (e & Hr & _ & Hs).
  rewrite Hr, Hs. split; [discriminate|]. split; [reflexivity|].
  apply (update_raises_on_zero_max
           (ResourceMonitor.gpu_bubble ResourceMonitor.fresh)
           (ResourceMonitor.canvas ResourceMonitor.fresh) 5).
  vm_compute. repeat split; discriminate.
Defined.

End FillAndOutcome.

(** ** Whole-number readings *)

Section WholeNumbers.

Import ResourceBubble.
Local Open Scope Q_scope.

Lemma py_int_inject_Z (n : Z) : Py.int (inject_Z n) = n.
Proof.
  unfold Py.int. destruct (Qle_bool 0 (inject_Z n));
    [apply Qfloor_Z | apply Qceiling_Z].
Qed.

Lemma py_round_inject_Z (n : Z) : Py.round (inject_Z n) = n.
Proof.
  unfold Py.round. rewrite Qfloor_Z.
  destruct (Qcompare (inject_Z n - inject_Z n) (1 # 2)) eqn:E.
  - apply Qeq_alt in E. exfalso. lra.
  - reflexivity.
  - apply Qgt_alt in E. exfalso. lra.
Qed.

Lemma py_ltb_inject_Z (n : Z) : Py.ltb (inject_Z n) 0 = (n <? 0)%Z.
Proof.
  destruct (Z.ltb_spec n 0) as [H|H].
  - apply py_ltb_lt. now rewrite Zlt_Qlt in H.
  - apply py_ltb_ge. now rewrite Zle_Qle in H.
Qed.

(** The two ways [update] formats a value agree on whole numbers. *)
Lemma format_0f_inject_Z (n : Z) : Py.format_0f (inject_Z n) = Py.str_int n.
Proof.
  unfold Py.format_0f, Py.str_int. rewrite py_ltb_inject_Z.
  change (Qabs (inject_Z n)) with (inject_Z (Z.abs n)).
  rewrite py_round_inject_Z. do 2 f_equal. lia.
Qed.

(** A whole-number reading in range that does not exceed [max_value]
    is shown digit for digit, whatever the unit: the text is the
    decimal numeral of the reading followed by the unit. *)
Theorem update_shows_whole_numbers (b : t) (c : Tk.Canvas) (n : Z) :
  Reading.in_range b (inject_Z n) -> inject_Z n <= max_value b ->
  is_Some (Tk.items c !! value_text b) ->
  display_text (snd (update (Py.Num (inject_Z n)) (b, c)))
  = Some (Py.str_int n ++ unit b)%string.
Proof.
  intros (Hmax & _) Hn [it Hit].
  rewrite update_Num_ok by now apply Qeq_bool_pos.
  cbv zeta. cbn [snd]. rewrite (py_min_l _ _ Hn).
  set (b' := with_value b (inject_Z n)).
  unfold display_text. cbn [fst snd].
  change (value_text b) with (value_text b') in Hit.
  rewrite (drawn_text _ _ _ Hit). f_equal. unfold render_text.
  cbn [unit value with_value b'].
  destruct (String.eqb (unit b) "°C").
  - now rewrite py_int_inject_Z.
  - now rewrite format_0f_inject_Z.
Qed.

Lemma update_shows_whole_numbers_witness :
  display_text
    (snd (update (Py.Num (inject_Z 42))
            (ResourceMonitor.vram_bubble ResourceMonitor.fresh,
             ResourceMonitor.canvas ResourceMonitor.fresh)))
  = Some "42%"%string.
Proof.
  rewrite (update_shows_whole_numbers
             (ResourceMonitor.vram_bubble ResourceMonitor.fresh)
             (ResourceMonitor.canvas ResourceMonitor.fresh) 42).
  - vm_compute. reflexivity.
  - vm_compute. repeat split; discriminate.
  - vm_compute. discriminate.
  - vm_compute. eexists; reflexivity.
Defined.

End WholeNumbers.

(** ** Colours handed to the canvas *)

Section Colours.

Import ResourceBubble.
Local Open Scope Q_scope.

Lemma format_02x_byte (n : Z) :
  (0 <= n <= 255)%Z ->
  Nat.eqb (String.length (Py.format_02x n)) 2
  && Canvas.all_hex (Py.format_02x n) = true.
Proof.
  intros H.
  assert (A : forallb
                (fun k => Nat.eqb (String.length (Py.format_02x k)) 2
                          && Canvas.all_hex (Py.format_02x k))
                (List.map Z.of_nat (seq 0 256)) = true)
    by (vm_compute; reflexivity).
  rewrite forallb_forall in A. apply A. apply in_map_iff.
  exists (Z.to_nat n). split; [lia | apply in_seq; lia].
Qed.

Lemma all_hex_app (s1 s2 : string) :
  Canvas.all_hex (s1 ++ s2) = Canvas.all_hex s1 && Canvas.all_hex s2.
Proof.
  induction s1 as [|a s1 IH]; [reflexivity|].
  change (Canvas.all_hex (String a s1 ++ s2))
    with (Canvas.is_hex_digit a && Canvas.all_hex (s1 ++ s2)).
  change (Canvas.all_hex (String a s1))
    with (Canvas.is_hex_digit a && Canvas.all_hex s1).
  now rewrite IH, andb_assoc.
Qed.

Lemma length_app (s1 s2 : string) :
  String.length (s1 ++ s2) = (String.length s1 + String.length s2)%nat.
Proof.
  induction s1 as [|a s1 IH]; [reflexivity|].
  change (String.length (String a s1 ++ s2))
    with (S (String.length (s1 ++ s2))).
  now rewrite IH.
Qed.

Lemma hex_color_bytes (r g b : Z) :
  (0 <= r <= 255)%Z -> (0 <= g <= 255)%Z -> (0 <= b <= 255)%Z ->
  Canvas.is_rgb_color (hex_color (r, g, b)) = true.
Proof.
  intros Hr Hg Hb.
  apply format_02x_byte, andb_true_iff in Hr as [Lr Xr].
  apply format_02x_byte, andb_true_iff in Hg as [Lg Xg].
  apply format_02x_byte, andb_true_iff in Hb as [Lb Xb].
  apply Nat.eqb_eq in Lr, Lg, Lb.
  change (hex_color (r, g, b))
    with (String "#" (Py.format_02x r ++ Py.format_02x g ++ Py.format_02x b)).
  unfold Canvas.is_rgb_color.
  rewrite !length_app, !all_hex_app, Lr, Lg, Lb, Xr, Xg, Xb. reflexivity.
Qed.

Lemma hex_color_negative (r g b : Z) :
  (r < 0)%Z -> Canvas.is_rgb_color (hex_color (r, g, b)) = false.
Proof.
  intros Hr. unfold hex_color, Py.format_02x.
  apply Z.ltb_lt in Hr. rewrite Hr. cbn. apply andb_false_r.
Qed.

Lemma int_between (lo hi : Z) (x : Q) :
  0 <= x -> inject_Z lo <= x <= inject_Z hi -> (lo <= Py.int x <= hi)%Z.
Proof.
  intros H0 H. rewrite py_int_nonneg by exact H0. now apply floor_between.
Qed.

Ltac byte :=
  apply (int_between 0 255); unfold inject_Z;
  rewrite ?div_50, ?div_10, ?div_30; lra.

Lemma interpolate_color_rgb_bytes (p : Q) :
  0 <= p <= 100 ->
  let '(r, g, b) := interpolate_color_rgb p in
  (0 <= r <= 255)%Z /\ (0 <= g <= 255)%Z /\ (0 <= b <= 255)%Z.
Proof.
  intros [H0 H100]. unfold interpolate_color_rgb.
  destruct (Qlt_le_dec 50 p) as [Hgt|Hle].
  - rewrite (le_50_false p Hgt).
    repeat split; try lia; byte.
  - rewrite (le_50_true p Hle).
    repeat split; byte.
Qed.

Lemma interpolate_temperature_rgb_bytes (t : Q) (r g b : Z) :
  interpolate_temperature_rgb t = Some (r, g, b) ->
  (0 <= r <= 255)%Z /\ (0 <= g <= 255)%Z /\ (0 <= b <= 255)%Z.
Proof.
  unfold interpolate_temperature_rgb, temperature_ratio.
  destruct (temperature_band t) eqn:B.
  - discriminate.
  - apply band_GreenToYellow in B as [Hlo Hhi].
    intros [= <- <- <-]. repeat split; byte.
  - apply band_YellowToOrange in B as [Hlo Hhi].
    intros [= <- <- <-]. repeat split; try lia; byte.
  - apply band_OrangeToRed in B.
    assert (R0 : 0 <= Py.min ((t - 70) / 30) 1)
      by (apply py_min_glb; [rewrite div_30; lra | discriminate]).
    assert (R1 : Py.min ((t - 70) / 30) 1 <= 1) by apply py_min_le_r.
    intros [= <- <- <-]. repeat split; try lia; byte.
Qed.

Lemma interpolate_color_is_rgb (p : Q) :
  0 <= p <= 100 -> Canvas.is_rgb_color (interpolate_color p) = true.
Proof.
  intros Hp. unfold interpolate_color.
  pose proof (interpolate_color_rgb_bytes p Hp) as H.
  destruct (interpolate_color_rgb p) as [[r g] b].
  destruct H as (Hr & Hg & Hb). now apply hex_color_bytes.
Qed.

Lemma interpolate_temperature_color_is_rgb (t : Q) :
  Canvas.is_rgb_color (interpolate_temperature_color t) = true.
Proof.
  unfold interpolate_temperature_color.
  destruct (interpolate_temperature_rgb t) as [[[r g] b]|] eqn:E.
  - destruct (interpolate_temperature_rgb_bytes t r g b E)
      as (Hr & Hg & Hb).
    now apply hex_color_bytes.
  - reflexivity.
Qed.

Lemma interpolate_color_red_negative (p : Q) :
  p <= -22 -> (fst (fst (interpolate_color_rgb p)) < 0)%Z.
Proof.
  intros Hp. unfold interpolate_color_rgb. rewrite le_50_true by lra.
  cbn [fst]. rewrite py_int_neg by (rewrite div_50; lra).
  assert (H : (Qceiling (76 + (255 - 76) * (p / 50)) <= Qceiling (-2))%Z)
    by (apply Qceiling_resp_le; rewrite div_50; lra).
  change (Qceiling (-2)) with (-2)%Z in H. lia.
Qed.

Lemma interpolate_color_not_rgb (p : Q) :
  p <= -22 -> Canvas.is_rgb_color (interpolate_color p) = false.
Proof.
  intros Hp. pose proof (interpolate_color_red_negative p Hp) as Hr.
  unfold interpolate_color.
  destruct (interpolate_color_rgb p) as [[r g] b].
  now apply hex_color_negative.
Qed.

(** Both ramps produce colours of the form [#rrggbb]: the linear ramp
    for every percentage between 0 and 100, the temperature ramp for
    every temperature. *)
Theorem ramps_give_rgb_colors :
  (forall p, 0 <= p <= 100 ->
             Canvas.is_rgb_color (interpolate_color p) = true) /\
  (forall t, Canvas.is_rgb_color (interpolate_temperature_color t) = true).
Proof.
  split;
    [exact interpolate_color_is_rgb
    | exact interpolate_temperature_color_is_rgb].
Qed.

Lemma ramps_give_rgb_colors_witness :
  Canvas.is_rgb_color (interpolate_color (123 # 10)) = true.
Proof.
  apply (proj1 ramps_give_rgb_colors). split; discriminate.
Defined.

(** Below the range the linear ramp leaves the colour format: from
    -22 percent down the red channel is negative and the string
    carries a minus sign, which is no [#rrggbb] colour. *)
Theorem interpolate_color_below_range (p : Q) :
  p <= -22 ->
  (fst (fst (interpolate_color_rgb p)) < 0)%Z /\
  Canvas.is_rgb_color (interpolate_color p) = false.
Proof.
  intros Hp. split;
    [now apply interpolate_color_red_negative
    | now apply interpolate_color_not_rgb].
Qed.

Lemma interpolate_color_below_range_witness :
  Canvas.is_rgb_color (interpolate_color (-50)) = false.
Proof.
  apply (interpolate_color_below_range (-50)). discriminate.
Defined.

Lemma interpolate_color_is_rgb_from_minus_20 (p : Q) :
  -20 <= p <= 100 -> Canvas.is_rgb_color (interpolate_color p) = true.
Proof.
  intros [H0 H100]. unfold interpolate_color, interpolate_color_rgb.
  destruct (Qlt_le_dec 50 p) as [Hgt|Hle].
  - rewrite (le_50_false p Hgt).
    apply hex_color_bytes; try lia; byte.
  - rewrite (le_50_true p Hle).
    apply hex_color_bytes; byte.
Qed.

Lemma percent_in_range (b : t) (v : Q) :
  Reading.in_range b v ->
  -20 <= Py.min v (max_value b) / max_value b * 100 <= 100.
Proof.
  intros (Hm & _ & Hv).
  assert (L : - (1 # 5) <= Py.min v (max_value b) / max_value b).
  { apply Qle_shift_div_l; [exact Hm|].
    apply py_min_glb; [exact Hv | lra]. }
  assert (U : Py.min v (max_value b) / max_value b <= 1).
  { apply Qle_shift_div_r; [exact Hm|].
    rewrite Qmult_1_l. apply py_min_le_r. }
  split; lra.
Qed.

Lemma render_color_in_range (b : t) (v : Q) :
  Reading.in_range b v ->
  Canvas.is_rgb_color
    (render_color (with_value b (Py.min v (max_value b)))) = true.
Proof.
  intros H. unfold render_color.
  cbn [is_temperature value max_value with_value].
  destruct (is_temperature b).
  - apply interpolate_temperature_color_is_rgb.
  - now apply interpolate_color_is_rgb_from_minus_20, percent_in_range.
Qed.

(** What [update] hands to the canvas as fill colour: for a reading in
    range, on either kind of bubble, a colour of the form [#rrggbb]. *)
Theorem update_fill_color_format (b : t) (c : Tk.Canvas) (v : Q) :
  Reading.in_range b v ->
  is_Some (Tk.items c !! fill_rect b) ->
  exists color,
    fill_color (snd (update (Py.Num v) (b, c))) = Some color /\
    Canvas.is_rgb_color color = true.
Proof.
  intros Hr [it Hit]. pose proof Hr as (Hm & _).
  rewrite update_Num_ok by now apply Qeq_bool_pos.
  cbv zeta. cbn [snd]. set (b' := with_value b (Py.min v (max_value b))).
  unfold fill_color. cbn [fst snd].
  change (fill_rect b) with (fill_rect b') in Hit.
  destruct (drawn_fill _ _ _ Hit) as (it' & -> & _ & Hf).
  cbn [fmap option_fmap option_map]. rewrite Hf.
  eexists. split; [reflexivity|]. now apply render_color_in_range.
Qed.

Lemma update_fill_color_format_witness :
  exists color,
    fill_color
      (snd (update (Py.Num (-10))
              (ResourceMonitor.cpu_bubble ResourceMonitor.fresh,
               ResourceMonitor.canvas ResourceMonitor.fresh)))
    = Some color /\
    Canvas.is_rgb_color color = true.
Proof.
  apply (update_fill_color_format
           (ResourceMonitor.cpu_bubble ResourceMonitor.fresh)
           (ResourceMonitor.canvas ResourceMonitor.fresh) (-10)).
  - vm_compute. repeat split; discriminate.
  - vm_compute. eexists; reflexivity.
Defined.

End Colours.

(** ** Construction *)

Section Construction.

Import ResourceBubble.
Local Open Scope Q_scope.

Lemma init_unfold (x y width height : Q) (label : string) (max_value : Q)
    (unit : string) (is_temperature : bool) (c : Tk.Canvas) :
  let n := Tk.next_id c in
  let text_y := y + Py.floordiv height 2 in
  __init__ x y width height label max_value unit is_temperature c
  = (Py.Ok (Mk x y width height label max_value unit 0 is_temperature
               n (S n) (S (S n)) (S (S (S n)))),
     Tk.MkCanvas
       (<[S (S (S n)) :=
            Tk.Item Tk.text_item [x + width - 5; text_y] "#e0e0e0" "" None
                    ("0" ++ unit) "e" (Some ("Segoe UI", 8%Z, "bold"))]>
          (<[S (S n) :=
               Tk.Item Tk.text_item [x + 5; text_y] "#e0e0e0" "" None
                       label "w" (Some ("Segoe UI", 8%Z, "bold"))]>
             (<[S n :=
                  Tk.Item Tk.rectangle_item [x; y; x; y + height]
                          "#4CAF50" "" None "" "" None]>
                (<[n :=
                     Tk.Item Tk.rectangle_item
                             [x; y; x + width; y + height]
                             "#2b2b2b" "#404040" (Some 1) "" "" None]>
                   (Tk.items c)))))
       (S (S (S (S n))))).
Proof. reflexivity. Qed.

(** The constructor creates four items under the next four ids and
    nothing else: the canvas keeps its other items, the ids from the
    new [next_id] on stay free, and the new bubble starts at value 0
    with an empty fill in the constant green and the text "0" followed
    by the unit. *)
Theorem init_creates_four_items (x y width height : Q) (label : string)
    (max_value : Q) (unit_ : string) (is_temperature : bool)
    (c : Tk.Canvas) :
  Canvas.fresh_ids c ->
  exists b c',
    __init__ x y width height label max_value unit_ is_temperature c
    = (Py.Ok b, c') /\
    [bg_rect b; fill_rect b; label_text b; value_text b]
    = seq (Tk.next_id c) 4 /\
    Tk.next_id c' = (Tk.next_id c + 4)%nat /\
    Canvas.fresh_ids c' /\
    (forall id, (id < Tk.next_id c)%nat ->
                Tk.items c' !! id = Tk.items c !! id) /\
    (forall id, id ∈ seq (Tk.next_id c) 4 -> is_Some (Tk.items c' !! id)) /\
    value b = 0 /\
    fill_extent (b, c') = Some 0 /\
    fill_color (b, c') = Some "#4CAF50"%string /\
    display_text (b, c') = Some ("0" ++ unit_)%string.
Proof.
  intros Hfresh. rewrite init_unfold. cbv zeta.
  set (n := Tk.next_id c). do 2 eexists. split; [reflexivity|].
  cbn [bg_rect fill_rect label_text value_text value Tk.next_id Tk.items].
  split; [reflexivity|]. split; [lia|]. split; [|split; [|split]].
  - intros id Hid. cbn [Tk.next_id Tk.items] in *.
    rewrite !lookup_insert_ne by lia. apply Hfresh. fold n. lia.
  - intros id Hid. now rewrite !lookup_insert_ne by lia.
  - intros id Hid. cbn [seq] in Hid.
    rewrite !elem_of_cons, elem_of_nil in Hid.
    destruct Hid as [->|[->|[->|[->|[]]]]].
    + rewrite !lookup_insert_ne by lia. rewrite lookup_insert_eq. eauto.
    + rewrite !lookup_insert_ne by lia. rewrite lookup_insert_eq. eauto.
    + rewrite !lookup_insert_ne by lia. rewrite lookup_insert_eq. eauto.
    + rewrite lookup_insert_eq. eauto.
  - unfold fill_extent, fill_color, display_text.
    cbn [fst snd fill_rect value_text Tk.items].
    rewrite lookup_insert_eq.
    rewrite !lookup_insert_ne by lia. rewrite lookup_insert_eq.
    cbn. repeat split. f_equal. change 0 with (Qred 0).
    apply Qred_complete. ring.
Qed.

Lemma init_creates_four_items_witness :
  exists b c',
    __init__ 5 5 85 30 "CPU" 100 "%" false Tk.new_canvas = (Py.Ok b, c') /\
    Tk.next_id c' = 5%nat.
Proof.
  destruct (init_creates_four_items 5 5 85 30 "CPU" 100 "%" false
              Tk.new_canvas)
    as (b & c' & Hinit & _ & Hnext & _).
  - intros id _. reflexivity.
  - exists b, c'. split; [exact Hinit | exact Hnext].
Defined.

(** The row [create_widgets] builds: five bubbles of 85 by 30 on the
    line y = 5, 88 apart from x = 5 in the order CPU, RAM, GPU, VRAM,
    Temp, so that neighbours are 3 apart and all lie inside the 450 by
    40 window; each starts at 0 with [max_value] 100 and only the last
    one colours by temperature; the canvas holds their 20 items, no
    two bubbles sharing one. *)
Theorem create_widgets_layout :
  ResourceMonitor.create_widgets Tk.new_canvas
  = (Py.Ok ResourceMonitor.fresh,
     ResourceMonitor.canvas ResourceMonitor.fresh) /\
  size (Tk.items (ResourceMonitor.canvas ResourceMonitor.fresh)) = 20%nat /\
  ResourceMonitor.well_formed ResourceMonitor.fresh /\
  (forall a,
     let b := ResourceMonitor.bubble a ResourceMonitor.fresh in
     x b == 5 + 88 * Dashboard.slot a /\ y b == 5 /\
     width b == 85 /\ height b == 30 /\
     max_value b == 100 /\ value b == 0 /\
     0 <= x b /\ x b + width b <= Window.window_width /\
     y b + height b <= Window.window_height /\
     is_temperature b
     = if decide (a = ResourceMonitor.Temp) then true else false) /\
  (forall a a',
     Dashboard.slot a < Dashboard.slot a' ->
     x (ResourceMonitor.bubble a ResourceMonitor.fresh)
     + width (ResourceMonitor.bubble a ResourceMonitor.fresh) + 3
     <= x (ResourceMonitor.bubble a' ResourceMonitor.fresh)).
Proof.
  split; [vm_compute; reflexivity|]. split; [vm_compute; reflexivity|].
  split; [exact well_formed_fresh|]. split.
  - intros a. destruct a; vm_compute; repeat split; discriminate.
  - intros a a'. destruct a, a'; vm_compute; intros H;
      discriminate H || discriminate.
Qed.

Lemma create_widgets_layout_witness :
  x (ResourceMonitor.bubble ResourceMonitor.Ram ResourceMonitor.fresh)
  + width (ResourceMonitor.bubble ResourceMonitor.Ram ResourceMonitor.fresh)
  + 3
  <= x (ResourceMonitor.bubble ResourceMonitor.Vram ResourceMonitor.fresh).
Proof.
  destruct create_widgets_layout as (_ & _ & _ & _ & H).
  apply (H ResourceMonitor.Ram ResourceMonitor.Vram). reflexivity.
Defined.

End Construction.

(** ** The GPU query and the sampling pass, case by case *)

Section Sampling.

Import ResourceMonitor.
Local Open Scope Q_scope.

Lemma get_gpu_stats_reports_first_gpu_aux
    (getGPUs : Py.M (list string) (list GPUtil.GPU))
    (out out' : list string) (gpus : list GPUtil.GPU) :
  getGPUs out = (Py.Ok gpus, out') ->
  get_gpu_stats true getGPUs out
  = (Py.Ok match gpus with
           | [] => (Py.None_, Py.None_, Py.None_)
           | gpu :: _ =>
               (Py.Num (GPUtil.load gpu * 100),
                Py.Num (GPUtil.memoryUtil gpu * 100),
                match GPUtil.temperature gpu with
                | Some t => Py.Num t
                | None => Py.None_
                end)
           end, out').
Proof.
  intros H. destruct gpus as [|gpu rest].
  - now apply get_gpu_stats_empty.
  - now apply (get_gpu_stats_first _ _ _ gpu rest).
Qed.

Lemma get_gpu_stats_reraises
    (getGPUs : Py.M (list string) (list GPUtil.GPU))
    (out out' : list string) (e : Py.exc) :
  getGPUs out = (Py.Raise e, out') ->
  Py.is_Exception e = false ->
  get_gpu_stats true getGPUs out = (Py.Raise e, out').
Proof.
  intros H He. unfold get_gpu_stats. cbn [negb].
  cbv [mbind M_bind Py.bind Py.try_except]. rewrite H, He. reflexivity.
Qed.

(** What [except Exception] does not catch goes through: when the
    backend raises something that is no [Exception] (a
    [KeyboardInterrupt], a [SystemExit]), the query raises it again
    without printing, and so does the pass of the sampling loop, which
    hands no sample over. *)
Theorem base_exceptions_propagate
    (getGPUs : Py.M (list string) (list GPUtil.GPU))
    (cpu_percent virtual_memory_percent : Py.M World Q)
    (w w1 w2 : World) (c r : Q) (e : Py.exc) (out' : list string) :
  Py.is_Exception e = false ->
  cpu_percent w = (Py.Ok c, w1) ->
  virtual_memory_percent w1 = (Py.Ok r, w2) ->
  getGPUs (stdout w2) = (Py.Raise e, out') ->
  get_gpu_stats true getGPUs (stdout w2) = (Py.Raise e, out') /\
  update_stats_body true cpu_percent virtual_memory_percent getGPUs w
  = (Py.Raise e, MkWorld out' (after_calls w2)).
Proof.
  intros He Hc Hr H.
  pose proof (get_gpu_stats_reraises _ _ _ _ H He) as G.
  split; [exact G|]. unfold update_stats_body.
  cbv [mbind M_bind Py.bind Py.try_except on_stdout Py.zoom].
  rewrite Hc, Hr, G, He. reflexivity.
Qed.

Lemma base_exceptions_propagate_witness :
  let interrupt := Py.Exc (Py.BaseException_ "KeyboardInterrupt") "" in
  update_stats_body true (mret 10) (mret 20) (Py.raise interrupt)
    (MkWorld [] [])
  = (Py.Raise interrupt, MkWorld [] []).
Proof.
  intros interrupt.
  exact (proj2 (base_exceptions_propagate (Py.raise interrupt)
                  (mret 10) (mret 20) (MkWorld [] []) (MkWorld [] [])
                  (MkWorld [] []) 10 20 interrupt []
                  eq_refl eq_refl eq_refl eq_refl)).
Defined.

(** A pass of the sampling loop never raises as long as the metric
    sources fail with [Exception]s only.  When the CPU or the memory
    source fails, the pass prints "Update error: ..." and hands no
    sample to the UI; when the sources answer it hands over exactly one
    call, with the readings in the order cpu, ram, gpu, vram, temp. *)
Theorem update_stats_body_survives
    (available : bool)
    (getGPUs : Py.M (list string) (list GPUtil.GPU))
    (cpu_percent virtual_memory_percent : Py.M World Q) (w : World) :
  (forall w0 e w', cpu_percent w0 = (Py.Raise e, w') ->
                   Py.is_Exception e = true) ->
  (forall w0 e w', virtual_memory_percent w0 = (Py.Raise e, w') ->
                   Py.is_Exception e = true) ->
  (forall out e out', getGPUs out = (Py.Raise e, out') ->
                      Py.is_Exception e = true) ->
  fst (update_stats_body available cpu_percent virtual_memory_percent
         getGPUs w) = Py.Ok () /\
  (forall e w1, cpu_percent w = (Py.Raise e, w1) ->
     update_stats_body available cpu_percent virtual_memory_percent getGPUs w
     = (Py.Ok (),
        MkWorld (stdout w1 ++ [("Update error: " ++ Py.exc_str e)%string])
                (after_calls w1))) /\
  (forall c w1 e w2,
     cpu_percent w = (Py.Ok c, w1) ->
     virtual_memory_percent w1 = (Py.Raise e, w2) ->
     update_stats_body available cpu_percent virtual_memory_percent getGPUs w
     = (Py.Ok (),
        MkWorld (stdout w2 ++ [("Update error: " ++ Py.exc_str e)%string])
                (after_calls w2))) /\
  (forall c w1 r w2 g v t out',
     cpu_percent w = (Py.Ok c, w1) ->
     virtual_memory_percent w1 = (Py.Ok r, w2) ->
     get_gpu_stats available getGPUs (stdout w2) = (Py.Ok (g, v, t), out') ->
     update_stats_body available cpu_percent virtual_memory_percent getGPUs w
     = (Py.Ok (),
        MkWorld out' (after_calls w2 ++ [(Py.Num c, Py.Num r, g, v, t)]))).
Proof.
  intros Hcpu Hram Hgpu.
  assert (Pcpu : forall e w1, cpu_percent w = (Py.Raise e, w1) ->
     update_stats_body available cpu_percent virtual_memory_percent getGPUs w
     = (Py.Ok (),
        MkWorld (stdout w1 ++ [("Update error: " ++ Py.exc_str e)%string])
                (after_calls w1))).
  { intros e w1 H. unfold update_stats_body.
    cbv [mbind M_bind Py.bind Py.try_except on_stdout Py.zoom].
    rewrite H, (Hcpu _ _ _ H). reflexivity. }
  assert (Pram : forall c w1 e w2,
     cpu_percent w = (Py.Ok c, w1) ->
     virtual_memory_percent w1 = (Py.Raise e, w2) ->
     update_stats_body available cpu_percent virtual_memory_percent getGPUs w
     = (Py.Ok (),
        MkWorld (stdout w2 ++ [("Update error: " ++ Py.exc_str e)%string])
                (after_calls w2))).
  { intros c w1 e w2 H1 H2. unfold update_stats_body.
    cbv [mbind M_bind Py.bind Py.try_except on_stdout Py.zoom].
    rewrite H1, H2, (Hram _ _ _ H2). reflexivity. }
  assert (Pok : forall c w1 r w2 g v t out',
     cpu_percent w = (Py.Ok c, w1) ->
     virtual_memory_percent w1 = (Py.Ok r, w2) ->
     get_gpu_stats available getGPUs (stdout w2) = (Py.Ok (g, v, t), out') ->
     update_stats_body available cpu_percent virtual_memory_percent getGPUs w
     = (Py.Ok (),
        MkWorld out' (after_calls w2 ++ [(Py.Num c, Py.Num r, g, v, t)]))).
  { intros c w1 r w2 g v t out' H1 H2 H3. unfold update_stats_body.
    cbv [mbind M_bind Py.bind Py.try_except on_stdout Py.zoom].
    rewrite H1, H2, H3. reflexivity. }
  split; [|split; [exact Pcpu | split; [exact Pram | exact Pok]]].
  destruct (cpu_percent w) as [[c|e] w1] eqn:H1.
  - destruct (virtual_memory_percent w1) as [[r|e] w2] eqn:H2.
    + assert (G : exists stats out',
                 get_gpu_stats available getGPUs (stdout w2)
                 = (Py.Ok stats, out')).
      { destruct available.
        - destruct (getGPUs (stdout w2)) as [[gpus|e] out'] eqn:H.
          + rewrite (get_gpu_stats_reports_first_gpu_aux _ _ _ _ H). eauto.
          + rewrite (get_gpu_stats_raises _ _ _ _ H (Hgpu _ _ _ H)). eauto.
        - rewrite get_gpu_stats_unavailable. eauto. }
      destruct G as ([[g v] t] & out' & G).
      now rewrite (Pok _ _ _ _ _ _ _ _ eq_refl H2 G).
    + now rewrite (Pram _ _ _ _ eq_refl H2).
  - now rewrite (Pcpu _ _ eq_refl).
Qed.

Lemma update_stats_body_survives_witness :
  let failure := Py.Exc (Py.Exception_ "OSError") "no memory info" in
  update_stats_body false (mret 10) (Py.raise failure) (mret [])
    (MkWorld [] [])
  = (Py.Ok (), MkWorld ["Update error: no memory info"%string] []).
Proof.
  intros failure.
  destruct (update_stats_body_survives false (mret [])
              (mret 10) (Py.raise failure) (MkWorld [] []))
    as (_ & _ & Hram & _).
  - intros w0 e w' H. discriminate H.
  - intros w0 e w' H. injection H as <- _. reflexivity.
  - intros out e out' H. discriminate H.
  - exact (Hram 10 (MkWorld [] []) failure (MkWorld [] []) eq_refl eq_refl).
Defined.

End Sampling.

(** ** Every reading reaches its own bubble *)

Section Routing.

Import ResourceMonitor.
Local Open Scope Q_scope.

Lemma in_sync_call (a : bubble_attr) (m : t) (v : Q) :
  well_formed m -> Reading.in_range (bubble a m) v ->
  let m' := snd (call a (ResourceBubble.update (Py.Num v)) m) in
  bubble a m'
  = ResourceBubble.with_value (bubble a m)
      (Py.min v (ResourceBubble.max_value (bubble a m))) /\
  Dashboard.in_sync a m'.
Proof.
  intros [Hown _] Hr. destruct (Hown a) as (Hpos & [itf Hf] & [itv Hv]).
  cbv zeta. unfold Dashboard.in_sync.
  rewrite snd_call, update_Num_ok by now apply Qeq_bool_pos.
  cbv zeta. cbn [fst snd]. rewrite bubble_set_same, canvas_set.
  pose proof (render_color_in_range _ _ Hr) as Hrgb.
  set (b' := ResourceBubble.with_value _ _) in *.
  split; [reflexivity|].
  change (ResourceBubble.fill_rect (bubble a m))
    with (ResourceBubble.fill_rect b') in Hf.
  change (ResourceBubble.value_text (bubble a m))
    with (ResourceBubble.value_text b') in Hv.
  destruct (drawn_fill _ _ _ Hf) as (it' & Hl & _ & Hcol).
  unfold ResourceBubble.fill_color, ResourceBubble.display_text.
  cbn [fst snd]. rewrite Hl, (drawn_text _ _ _ Hv).
  cbn [fmap option_fmap option_map]. rewrite Hcol.
  split; [reflexivity|]. eexists. split; [reflexivity | exact Hrgb].
Qed.

Lemma in_sync_kept (a a' : bubble_attr) (m : t) (v : Py.value) :
  a <> a' -> well_formed m -> Dashboard.in_sync a m ->
  Dashboard.in_sync a (snd (call a' (ResourceBubble.update v) m)).
Proof.
  intros Hne [_ Hsep] Hz.
  destruct (call_update_frame a' m v) as (Hoth & _ & _ & Hitems & _).
  cbv zeta in Hoth, Hitems.
  assert (Hf : Tk.items (canvas (snd (call a' (ResourceBubble.update v) m)))
               !! ResourceBubble.fill_rect (bubble a m)
               = Tk.items (canvas m) !! ResourceBubble.fill_rect (bubble a m)).
  { apply Hitems, (Hsep a a' _ Hne). unfold item_ids. set_solver. }
  assert (Hv : Tk.items (canvas (snd (call a' (ResourceBubble.update v) m)))
               !! ResourceBubble.value_text (bubble a m)
               = Tk.items (canvas m) !! ResourceBubble.value_text (bubble a m)).
  { apply Hitems, (Hsep a a' _ Hne). unfold item_ids. set_solver. }
  unfold Dashboard.in_sync in *. rewrite (Hoth a Hne).
  unfold ResourceBubble.fill_color, ResourceBubble.display_text in *.
  cbn [fst snd] in *. rewrite Hf, Hv. exact Hz.
Qed.

Lemma bubble_kept (a a' : bubble_attr) (m : t) (v : Py.value) :
  a <> a' -> bubble a (snd (call a' (ResourceBubble.update v) m)) = bubble a m.
Proof.
  intros Hne. destruct (call_update_frame a' m v) as (Hoth & _).
  now apply Hoth.
Qed.

(** [update_bubbles] with numeric CPU and RAM readings in range, on a
    monitor laid out as [create_widgets] does: each bubble stores its
    own reading (an absent one counting as 0) clamped to its
    [max_value], whatever the other four readings are, and when the
    call returns the canvas shows, for every bubble, the text of the
    value it stores and a fill colour of the form [#rrggbb]. *)
Theorem update_bubbles_routes_readings (m : t) (c r : Q)
    (g v t : Py.value) (a : bubble_attr) :
  well_formed m ->
  Reading.sample_in_range m c r g v t ->
  let m' := snd (update_bubbles (Py.Num c) (Py.Num r) g v t m) in
  bubble a m'
  = ResourceBubble.with_value (bubble a m)
      (Py.min (Dashboard.reading c r g v t a)
              (ResourceBubble.max_value (bubble a m))) /\
  Dashboard.in_sync a m'.
Proof.
  intros W0 R. unfold update_bubbles. rewrite !route_absent.
  fold (Dashboard.or_zero g) (Dashboard.or_zero v) (Dashboard.or_zero t).
  rewrite (bind_Ok _ _ _ ()) by now apply call_update_Ok.
  set (m1 := snd (call Cpu (ResourceBubble.update (Py.Num c)) m)).
  assert (W1 : well_formed m1) by now apply well_formed_call.
  rewrite (bind_Ok _ _ _ ()) by now apply call_update_Ok.
  set (m2 := snd (call Ram (ResourceBubble.update (Py.Num r)) m1)).
  assert (W2 : well_formed m2) by now apply well_formed_call.
  rewrite (bind_Ok _ _ _ ()) by now apply call_update_Ok.
  set (m3 := snd (call Gpu (ResourceBubble.update
                              (Py.Num (Dashboard.or_zero g))) m2)).
  assert (W3 : well_formed m3) by now apply well_formed_call.
  rewrite (bind_Ok _ _ _ ()) by now apply call_update_Ok.
  set (m4 := snd (call Vram (ResourceBubble.update
                               (Py.Num (Dashboard.or_zero v))) m3)).
  assert (W4 : well_formed m4) by now apply well_formed_call.
  cbv zeta.
  set (m5 := snd (call Temp (ResourceBubble.update
                               (Py.Num (Dashboard.or_zero t))) m4)).
  assert (R1 : Reading.in_range (bubble Cpu m) c) by exact (R Cpu).
  assert (R2 : Reading.in_range (bubble Ram m1) r).
  { unfold m1. rewrite !bubble_kept by discriminate. exact (R Ram). }
  assert (R3 : Reading.in_range (bubble Gpu m2) (Dashboard.or_zero g)).
  { unfold m2, m1. rewrite !bubble_kept by discriminate. exact (R Gpu). }
  assert (R4 : Reading.in_range (bubble Vram m3) (Dashboard.or_zero v)).
  { unfold m3, m2, m1. rewrite !bubble_kept by discriminate.
    exact (R Vram). }
  assert (R5 : Reading.in_range (bubble Temp m4) (Dashboard.or_zero t)).
  { unfold m4, m3, m2, m1. rewrite !bubble_kept by discriminate.
    exact (R Temp). }
  destruct (in_sync_call Cpu m c W0 R1) as [B1 S1].
  destruct (in_sync_call Ram m1 r W1 R2) as [B2 S2].
  destruct (in_sync_call Gpu m2 (Dashboard.or_zero g) W2 R3) as [B3 S3].
  destruct (in_sync_call Vram m3 (Dashboard.or_zero v) W3 R4) as [B4 S4].
  destruct (in_sync_call Temp m4 (Dashboard.or_zero t) W4 R5) as [B5 S5].
  cbv zeta in *. fold m1 in B1, S1. fold m2 in B2, S2. fold m3 in B3, S3.
  fold m4 in B4, S4. fold m5 in B5, S5.
  destruct a; cbn [Dashboard.reading]; split.
  - unfold m5, m4, m3, m2. rewrite !bubble_kept by discriminate. exact B1.
  - unfold m5. apply in_sync_kept; [discriminate | exact W4 |].
    unfold m4. apply in_sync_kept; [discriminate | exact W3 |].
    unfold m3. apply in_sync_kept; [discriminate | exact W2 |].
    unfold m2. apply in_sync_kept; [discriminate | exact W1 |]. exact S1.
  - unfold m5, m4, m3. rewrite !bubble_kept by discriminate. rewrite B2.
    unfold m1. now rewrite !bubble_kept by discriminate.
  - unfold m5. apply in_sync_kept; [discriminate | exact W4 |].
    unfold m4. apply in_sync_kept; [discriminate | exact W3 |].
    unfold m3. apply in_sync_kept; [discriminate | exact W2 |]. exact S2.
  - unfold m5, m4. rewrite !bubble_kept by discriminate. rewrite B3.
    unfold m2, m1. now rewrite !bubble_kept by discriminate.
  - unfold m5. apply in_sync_kept; [discriminate | exact W4 |].
    unfold m4. apply in_sync_kept; [discriminate | exact W3 |]. exact S3.
  - unfold m5. rewrite !bubble_kept by discriminate. rewrite B4.
    unfold m3, m2, m1. now rewrite !bubble_kept by discriminate.
  - unfold m5. apply in_sync_kept; [discriminate | exact W4 |]. exact S4.
  - rewrite B5. unfold m4, m3, m2, m1.
    now rewrite !bubble_kept by discriminate.
  - exact S5.
Qed.

Lemma update_bubbles_routes_readings_witness :
  ResourceBubble.value
    (bubble Gpu (snd (update_bubbles (Py.Num 10) (Py.Num 20) (Py.Num 130)
                        Py.None_ (Py.Num 64) fresh)))
  = Py.min 130 (ResourceBubble.max_value (bubble Gpu fresh)).
Proof.
  destruct (update_bubbles_routes_readings fresh 10 20 (Py.Num 130)
              Py.None_ (Py.Num 64) Gpu well_formed_fresh) as [H _].
  - intros a. destruct a; vm_compute; repeat split; discriminate.
  - rewrite H.
    cbn [ResourceBubble.value ResourceBubble.with_value Dashboard.reading
         Dashboard.or_zero].
    reflexivity.
Defined.

Lemma call_update_None (a : bubble_attr) (m : t) :
  call a (ResourceBubble.update Py.None_) m
  = (Py.Raise (Py.Exc Py.TypeError
       "'<' not supported between instances of 'int' and 'NoneType'"), m).
Proof.
  unfold call, Py.zoom. rewrite update_None. cbn [fst snd].
  now destruct m, a.
Qed.

(** Only the GPU, VRAM and temperature readings may be absent.  With
    an absent CPU reading [update_bubbles] raises [TypeError] at once
    and changes nothing.  With an absent RAM reading it raises after
    the CPU bubble has been updated with its reading, taken in range:
    the other four bubbles, and every canvas item that is not the CPU
    bubble's, stay as they were. *)
Theorem update_bubbles_needs_cpu_and_ram (m : t) (c : Q)
    (r g v t : Py.value) :
  (exists e, update_bubbles Py.None_ r g v t m = (Py.Raise e, m) /\
             Py.exc_type e = Py.TypeError) /\
  (Reading.in_range (cpu_bubble m) c ->
   let m' := snd (update_bubbles (Py.Num c) Py.None_ g v t m) in
   (exists e, fst (update_bubbles (Py.Num c) Py.None_ g v t m) = Py.Raise e /\
              Py.exc_type e = Py.TypeError) /\
   m' = snd (call Cpu (ResourceBubble.update (Py.Num c)) m) /\
   (forall a, a <> Cpu -> bubble a m' = bubble a m) /\
   (forall id, id ∉ item_ids (cpu_bubble m) ->
      Tk.items (canvas m') !! id = Tk.items (canvas m) !! id)).
Proof.
  split.
  - unfold update_bubbles. cbv [mbind M_bind Py.bind].
    rewrite call_update_None. eexists. split; reflexivity.
  - intros (Hmax & _). unfold update_bubbles.
    assert (Hok : fst (call Cpu (ResourceBubble.update (Py.Num c)) m)
                  = Py.Ok ()).
    { rewrite fst_call, update_Num_ok by now apply Qeq_bool_pos.
      reflexivity. }
    rewrite (bind_Ok _ _ _ () Hok).
    cbv [mbind M_bind Py.bind]. rewrite call_update_None. cbv zeta.
    cbn [fst snd].
    destruct (call_update_frame Cpu m (Py.Num c)) as (Hoth & _ & _ & Hit & _).
    split; [eexists; split; reflexivity|]. split; [reflexivity|].
    split; [exact Hoth | exact Hit].
Qed.

Lemma update_bubbles_needs_cpu_and_ram_witness :
  bubble Gpu (snd (update_bubbles (Py.Num 50) Py.None_ (Py.Num 90)
                     (Py.Num 90) (Py.Num 90) fresh))
  = bubble Gpu fresh.
Proof.
  destruct (update_bubbles_needs_cpu_and_ram fresh 50 Py.None_ (Py.Num 90)
              (Py.Num 90) (Py.Num 90)) as [_ H].
  destruct H as (_ & _ & Hoth & _).
  - vm_compute. repeat split; discriminate.
  - apply Hoth. discriminate.
Defined.

End Routing.

(** ** Showing, hiding and closing the window *)

Section WindowLifetime.

Import Window.

Lemma handle_run (r : request) (s : t) :
  handle r s
  = (Py.Ok (),
     let v := match r with
              | Toggle => negb (window_visible s)
              | Hide => false
              | Show => true
              end in
     Mk v v (running s) (tray_icon s)).
Proof.
  destruct r; cbn [handle]; unfold toggle_window, hide_window, show_window;
    cbv [mbind M_bind Py.bind Py.gets withdraw deiconify set_window_visible
         Py.modify]; cbn; try reflexivity.
  now destruct (window_visible s).
Qed.

Lemma handle_all_run (rs : list request) (s : t) :
  handle_all rs s
  = (Py.Ok (),
     match rs with
     | [] => s
     | _ :: _ =>
         let v := fold_left
                    (fun vis r => match r with
                                  | Toggle => negb vis
                                  | Hide => false
                                  | Show => true
                                  end) rs (window_visible s) in
         Mk v v (running s) (tray_icon s)
     end).
Proof.
  revert s. induction rs as [|r rs IH]; intros s; [reflexivity|].
  cbn [handle_all]. cbv [mbind M_bind Py.bind]. rewrite handle_run.
  cbv zeta. rewrite IH. destruct rs as [|r' rs]; reflexivity.
Qed.

(** Whatever sequence of show, hide and toggle requests arrives, each
    is served without error; from the first request on the flag
    [window_visible] agrees with the state of the Tk window, and both
    are what replaying the requests on the flag gives (a toggle
    negates, hide and show set); the [running] flag and the tray icon
    are not touched. *)
Theorem window_requests_keep_flag_in_step (rs : list request) (s : t) :
  let s' := snd (handle_all rs s) in
  fst (handle_all rs s) = Py.Ok () /\
  (rs <> [] \/ window_visible s = mapped s ->
   window_visible s' = mapped s') /\
  window_visible s'
  = fold_left (fun vis r => match r with
                            | Toggle => negb vis
                            | Hide => false
                            | Show => true
                            end) rs (window_visible s) /\
  running s' = running s /\
  tray_icon s' = tray_icon s.
Proof.
  cbv zeta. rewrite handle_all_run. cbn [fst snd].
  destruct rs as [|r rs]; cbn [window_visible mapped running tray_icon].
  - repeat split. now intros [[]|H].
  - repeat split.
Qed.

Lemma window_requests_keep_flag_in_step_witness :
  window_visible (snd (handle_all [Toggle; Toggle; Hide; Toggle] initial))
  = mapped (snd (handle_all [Toggle; Toggle; Hide; Toggle] initial)).
Proof.
  destruct (window_requests_keep_flag_in_step
              [Toggle; Toggle; Hide; Toggle] initial) as (_ & H & _).
  apply H. left. discriminate.
Defined.

Lemma quit_app_run {Ext : Type}
    (tray_stop root_quit root_destroy : Py.M Ext ()) (s : t) (x : Ext) :
  let system_exit := Py.Exc (Py.BaseException_ "SystemExit") "0" in
  let close x1 :=
    match root_quit x1 with
    | (Py.Ok _, x2) => snd (root_destroy x2)
    | (Py.Raise _, x2) => x2
    end in
  quit_app tray_stop root_quit root_destroy (s, x)
  = match tray_icon s with
    | Some _ =>
        let s' := Mk (mapped s) (window_visible s) false (Some false) in
        match tray_stop x with
        | (Py.Ok _, x1) => (Py.Raise system_exit, (s', close x1))
        | (Py.Raise e, x1) => (Py.Raise e, (s', x1))
        end
    | None =>
        (Py.Raise system_exit,
         (Mk (mapped s) (window_visible s) false None, close x))
    end.
Proof.
  cbv zeta. unfold quit_app.
  cbv [mbind M_bind Py.bind on_self on_ext Py.zoom set_running
       set_tray_visible Py.modify Py.gets try_except_all Py.ret mret M_ret].
  cbn [fst snd tray_icon running mapped window_visible].
  destruct (tray_icon s) as [vis|];
    cbn [fst snd tray_icon running mapped window_visible].
  - destruct (tray_stop x) as [[[]|e] x1]; cbn [fst snd]; [|reflexivity].
    destruct (root_quit x1) as [[[]|e] x2]; cbn [fst snd]; [|reflexivity].
    now destruct (root_destroy x2) as [[[]|e] x3].
  - destruct (root_quit x) as [[[]|e] x2]; cbn [fst snd]; [|reflexivity].
    now destruct (root_destroy x2) as [[[]|e] x3].
Qed.

(** [quit_app] never returns: it clears [running] first and ends by
    raising.  If there is no tray icon, or stopping it succeeds, what
    it raises is [SystemExit(0)] whatever [root.quit] and
    [root.destroy] do, since their failures are swallowed; when
    [root.quit] fails, [root.destroy] is not called.  If stopping the
    tray icon fails, that failure is what [quit_app] raises and the
    window is not closed. *)
Theorem quit_app_always_raises {Ext : Type}
    (tray_stop root_quit root_destroy : Py.M Ext ()) (s : t) (x : Ext) :
  let out := quit_app tray_stop root_quit root_destroy (s, x) in
  let system_exit := Py.Exc (Py.BaseException_ "SystemExit") "0" in
  running (fst (snd out)) = false /\
  fst out <> Py.Ok () /\
  (forall x1,
     (tray_icon s = None /\ x1 = x) \/
     (is_Some (tray_icon s) /\ tray_stop x = (Py.Ok (), x1)) ->
     fst out = Py.Raise system_exit /\
     (forall e x2, root_quit x1 = (Py.Raise e, x2) -> snd (snd out) = x2) /\
     (forall x2, root_quit x1 = (Py.Ok (), x2) ->
                 snd (snd out) = snd (root_destroy x2))) /\
  (forall e x1,
     is_Some (tray_icon s) -> tray_stop x = (Py.Raise e, x1) ->
     out = (Py.Raise e,
            (Mk (mapped s) (window_visible s) false (Some false), x1))).
Proof.
  cbv zeta. rewrite quit_app_run. cbv zeta.
  destruct (tray_icon s) as [vis|].
  - destruct (tray_stop x) as [[[]|e] x1]; cbn [fst snd running].
    + split; [reflexivity|]. split; [discriminate|]. split.
      * intros x1' [[H _]|[_ H]]; [discriminate|]. injection H as <-.
        split; [reflexivity|]. split.
        -- intros e x2 ->. reflexivity.
        -- intros x2 ->. reflexivity.
      * intros e x1' _ H. discriminate H.
    + split; [reflexivity|]. split; [discriminate|]. split.
      * intros x1' [[H _]|[_ H]]; discriminate.
      * intros e' x1' _ [= <- <-]. reflexivity.
  - cbn [fst snd running].
    split; [reflexivity|]. split; [discriminate|]. split.
    + intros x1' [[_ ->]|[[? H] _]]; [|discriminate].
      split; [reflexivity|]. split.
      * intros e x2 ->. reflexivity.
      * intros x2 ->. reflexivity.
    + intros e x1' [? H]. discriminate.
Qed.

Lemma quit_app_always_raises_witness :
  fst (quit_app (Ext := list string)
         (Py.modify (fun log => (log ++ ["stop"])%list))
         (Py.raise (Py.Exc (Py.Exception_ "TclError") "application destroyed"))
         (Py.modify (fun log => (log ++ ["destroy"])%list))
         (initial, []))
  = Py.Raise (Py.Exc (Py.BaseException_ "SystemExit") "0").
Proof.
  destruct (quit_app_always_raises (Ext := list string)
              (Py.modify (fun log => (log ++ ["stop"])%list))
              (Py.raise (Py.Exc (Py.Exception_ "TclError")
                           "application destroyed"))
              (Py.modify (fun log => (log ++ ["destroy"])%list))
              initial []) as (_ & _ & H & _).
  apply (H ["stop"]). right. split; [eexists; reflexivity | reflexivity].
Defined.

End WindowLifetime.

(** ** The shape of the linear ramp *)

Section RampShape.

Import ResourceBubble.
Local Open Scope Q_scope.

Lemma py_int_mono (x y : Q) : x <= y -> (Py.int x <= Py.int y)%Z.
Proof.
  intros H. destruct (Qlt_le_dec x 0) as [Hx|Hx].
  - rewrite (py_int_neg x Hx). destruct (Qlt_le_dec y 0) as [Hy|Hy].
    + rewrite (py_int_neg y Hy). now apply Qceiling_resp_le.
    + rewrite (py_int_nonneg y Hy).
      assert (Qceiling x <= 0)%Z
        by (rewrite <- (Qceiling_Z 0); apply Qceiling_resp_le;
            now apply Qlt_le_weak).
      assert (0 <= Qfloor y)%Z
        by (rewrite <- (Qfloor_Z 0); now apply Qfloor_resp_le).
      lia.
  - rewrite (py_int_nonneg x Hx).
    rewrite py_int_nonneg by (now apply Qle_trans with x).
    now apply Qfloor_resp_le.
Qed.

Ltac channel_mono := apply py_int_mono; rewrite !div_50; lra.

(** As the percentage rises the linear ramp moves from green to red
    and never back: the red channel never decreases; up to 50 percent
    green rises and blue falls; above 50 percent red stays at 255 while
    green and blue fall. *)
Theorem linear_ramp_moves_toward_red (p q : Q) :
  p <= q ->
  let '(r1, g1, b1) := interpolate_color_rgb p in
  let '(r2, g2, b2) := interpolate_color_rgb q in
  (r1 <= r2)%Z /\
  (q <= 50 -> (g1 <= g2)%Z /\ (b2 <= b1)%Z) /\
  (50 < p -> r1 = 255%Z /\ r2 = 255%Z /\ (g2 <= g1)%Z /\ (b2 <= b1)%Z).
Proof.
  intros Hpq. unfold interpolate_color_rgb.
  destruct (Qlt_le_dec 50 p) as [Hp|Hp];
    destruct (Qlt_le_dec 50 q) as [Hq|Hq].
  - rewrite (le_50_false p Hp), (le_50_false q Hq).
    split; [lia|]. split; [intros H; exfalso; lra|].
    intros _. repeat split; channel_mono.
  - exfalso. lra.
  - rewrite (le_50_true p Hp), (le_50_false q Hq).
    split; [|split; intros H; exfalso; lra].
    assert (H : (Py.int (76 + (255 - 76) * (p / 50)) <= Py.int 255)%Z)
      by channel_mono.
    exact H.
  - rewrite (le_50_true p Hp), (le_50_true q Hq).
    split; [channel_mono|]. split; [|intros H; exfalso; lra].
    intros _. split; channel_mono.
Qed.

Lemma linear_ramp_moves_toward_red_witness :
  (fst (fst (interpolate_color_rgb 20))
   <= fst (fst (interpolate_color_rgb 80)))%Z.
Proof.
  assert (H : 20 <= 80) by discriminate.
  pose proof (linear_ramp_moves_toward_red 20 80 H) as M.
  destruct (interpolate_color_rgb 20) as [[r1 g1] b1].
  destruct (interpolate_color_rgb 80) as [[r2 g2] b2].
  exact (proj1 M).
Defined.

(** The blue channel jumps at 50 percent: it has fallen to 0 at
    exactly 50, and it is 58 for every percentage above 50 up to
    50 + 50/59, where the second half of the ramp starts its fall
    from 59. *)
Theorem linear_ramp_blue_jumps_at_50 (p : Q) :
  50 < p <= 50 + 50 / 59 ->
  snd (interpolate_color_rgb 50) = 0%Z /\
  interpolate_color_rgb p
  = (255%Z, snd (fst (interpolate_color_rgb p)), 58%Z) /\
  (232 <= snd (fst (interpolate_color_rgb p)) <= 235)%Z.
Proof.
  intros [Hlo Hhi]. split; [reflexivity|].
  assert (E : 50 / 59 == 50 # 59) by reflexivity. rewrite E in Hhi.
  unfold interpolate_color_rgb. rewrite (le_50_false p Hlo). cbn [fst snd].
  assert (Hb : Py.int (59 * (1 - (p - 50) / 50)) = 58%Z).
  { rewrite py_int_nonneg by (rewrite div_50; lra).
    apply Z.le_antisymm.
    - apply Z.lt_succ_r. change (Z.succ 58) with 59%Z.
      apply Z.lt_nge. intros Hge.
      assert (Hq : inject_Z 59 <= 59 * (1 - (p - 50) / 50)).
      { eapply Qle_trans; [|apply Qfloor_le].
        rewrite <- Zle_Qle. exact Hge. }
      rewrite div_50 in Hq. change (inject_Z 59) with 59 in Hq. lra.
    - apply (floor_between 58 59). unfold inject_Z. rewrite div_50. lra. }
  rewrite Hb. split; [reflexivity|].
  rewrite py_int_nonneg by (rewrite div_50; lra).
  apply (floor_between 232 235). unfold inject_Z. rewrite div_50. lra.
Qed.

Lemma linear_ramp_blue_jumps_at_50_witness :
  snd (interpolate_color_rgb (501 # 10)) = 58%Z.
Proof.
  destruct (linear_ramp_blue_jumps_at_50 (501 # 10)) as (_ & H & _).
  - split; [reflexivity | discriminate].
  - now rewrite H.
Defined.

End RampShape.

(** ** From the sampling loop to the bubbles *)

Section EndToEnd.

Import ResourceMonitor.
Local Open Scope Q_scope.

Lemma update_bubbles_Ok (m : t) (c r : Q) (g v t : Py.value) :
  well_formed m ->
  fst (update_bubbles (Py.Num c) (Py.Num r) g v t m) = Py.Ok ().
Proof.
  intros W0. unfold update_bubbles. rewrite !route_absent.
  rewrite (bind_Ok _ _ _ ()) by now apply call_update_Ok.
  set (m1 := snd (call Cpu _ m)).
  assert (W1 : well_formed m1) by now apply well_formed_call.
  rewrite (bind_Ok _ _ _ ()) by now apply call_update_Ok.
  set (m2 := snd (call Ram _ m1)).
  assert (W2 : well_formed m2) by now apply well_formed_call.
  rewrite (bind_Ok _ _ _ ()) by now apply call_update_Ok.
  set (m3 := snd (call Gpu _ m2)).
  assert (W3 : well_formed m3) by now apply well_formed_call.
  rewrite (bind_Ok _ _ _ ()) by now apply call_update_Ok.
  set (m4 := snd (call Vram _ m3)).
  assert (W4 : well_formed m4) by now apply well_formed_call.
  now apply call_update_Ok.
Qed.

Lemma or_zero_first_gpu (gpus : list GPUtil.GPU) :
  Forall Reading.plausible_gpu gpus ->
  let '(g, v, t) :=
    match gpus with
    | [] => (Py.None_, Py.None_, Py.None_)
    | gpu :: _ =>
        (Py.Num (GPUtil.load gpu * 100),
         Py.Num (GPUtil.memoryUtil gpu * 100),
         match GPUtil.temperature gpu with
         | Some t => Py.Num t
         | None => Py.None_
         end)
    end in
  0 <= Dashboard.or_zero g /\ 0 <= Dashboard.or_zero v /\
  0 <= Dashboard.or_zero t.
Proof.
  intros H. destruct H as [|gpu rest (Hl & Hm & Ht) _].
  - repeat split; discriminate.
  - cbn [Dashboard.or_zero]. split; [lra|]. split; [lra|].
    destruct (GPUtil.temperature gpu); [exact Ht | discriminate].
Qed.

Lemma sample_nonneg (m : t) (c r : Q) (g v t : Py.value) :
  well_formed m ->
  (forall a, ResourceBubble.max_value (bubble a m) <= 1000000000000000) ->
  (forall a, 0 <= Dashboard.reading c r g v t a) ->
  Reading.sample_in_range m c r g v t.
Proof.
  intros [Hown _] Hmax Hpos a. destruct (Hown a) as (Hm & _).
  specialize (Hmax a). specialize (Hpos a).
  unfold Reading.in_range. repeat split; [exact Hm | exact Hmax | lra].
Qed.

(** Whatever a pass of the sampling loop hands to the UI thread,
    [update_bubbles] can serve: when the CPU and memory sources answer
    with readings that are not negative, and the GPU backend either
    fails with an [Exception] or lists GPUs with plausible figures,
    the pass hands over one call whose arguments are in range for any
    monitor laid out as [create_widgets] does, which [update_bubbles]
    applies to it without error, and which leaves that layout in place
    for the next call. *)
Theorem scheduled_call_is_served
    (available : bool)
    (getGPUs : Py.M (list string) (list GPUtil.GPU))
    (cpu_percent virtual_memory_percent : Py.M World Q)
    (w w1 w2 : World) (c r : Q) (m : t) :
  (forall out e out', getGPUs out = (Py.Raise e, out') ->
                      Py.is_Exception e = true) ->
  (forall out gpus out', getGPUs out = (Py.Ok gpus, out') ->
                         Forall Reading.plausible_gpu gpus) ->
  cpu_percent w = (Py.Ok c, w1) ->
  virtual_memory_percent w1 = (Py.Ok r, w2) ->
  0 <= c -> 0 <= r ->
  well_formed m ->
  (forall a, ResourceBubble.max_value (bubble a m) <= 1000000000000000) ->
  exists g v t,
    after_calls
      (snd (update_stats_body available cpu_percent virtual_memory_percent
              getGPUs w))
    = (after_calls w2 ++ [(Py.Num c, Py.Num r, g, v, t)])%list /\
    Reading.sample_in_range m c r g v t /\
    fst (update_bubbles (Py.Num c) (Py.Num r) g v t m) = Py.Ok () /\
    well_formed (snd (update_bubbles (Py.Num c) (Py.Num r) g v t m)).
Proof.
  intros Hgpu Hfig Hc Hr Hc0 Hr0 W Hmax.
  assert (G : exists g v t out',
             get_gpu_stats available getGPUs (stdout w2)
             = (Py.Ok (g, v, t), out') /\
             0 <= Dashboard.or_zero g /\ 0 <= Dashboard.or_zero v /\
             0 <= Dashboard.or_zero t).
  { destruct available.
    - destruct (getGPUs (stdout w2)) as [[gpus|e] out'] eqn:H.
      + rewrite (get_gpu_stats_reports_first_gpu_aux _ _ _ _ H).
        pose proof (or_zero_first_gpu gpus (Hfig _ _ _ H)) as Hz.
        destruct (match gpus with [] => _ | _ :: _ => _ end)
          as [[g v] t].
        exists g, v, t, out'. split; [reflexivity | exact Hz].
      + rewrite (get_gpu_stats_raises _ _ _ _ H (Hgpu _ _ _ H)).
        do 4 eexists. split; [reflexivity|]. repeat split; discriminate.
    - rewrite get_gpu_stats_unavailable.
      do 4 eexists. split; [reflexivity|]. repeat split; discriminate. }
  destruct G as (g & v & t & out' & G & Hg & Hv & Ht). exists g, v, t.
  split; [|split; [|split]].
  - unfold update_stats_body.
    cbv [mbind M_bind Py.bind Py.try_except on_stdout Py.zoom].
    rewrite Hc, Hr, G. reflexivity.
  - apply sample_nonneg; [exact W | exact Hmax|].
    intros a. now destruct a.
  - now apply update_bubbles_Ok.
  - unfold update_bubbles. rewrite !route_absent.
    rewrite (bind_Ok _ _ _ ()) by now apply call_update_Ok.
    set (m1 := snd (call Cpu _ m)).
    assert (W1 : well_formed m1) by now apply well_formed_call.
    rewrite (bind_Ok _ _ _ ()) by now apply call_update_Ok.
    set (m2 := snd (call Ram _ m1)).
    assert (W2 : well_formed m2) by now apply well_formed_call.
    rewrite (bind_Ok _ _ _ ()) by now apply call_update_Ok.
    set (m3 := snd (call Gpu _ m2)).
    assert (W3 : well_formed m3) by now apply well_formed_call.
    rewrite (bind_Ok _ _ _ ()) by now apply call_update_Ok.
    set (m4 := snd (call Vram _ m3)).
    assert (W4 : well_formed m4) by now apply well_formed_call.
    now apply well_formed_call.
Qed.

Lemma scheduled_call_is_served_witness :
  exists g v t,
    after_calls
      (snd (update_stats_body true (mret 12) (mret 34)
              (mret [GPUtil.MkGPU (1 # 4) (1 # 2) (Some 61)])
              (MkWorld [] [])))
    = [(Py.Num 12, Py.Num 34, g, v, t)] /\
    fst (update_bubbles (Py.Num 12) (Py.Num 34) g v t fresh) = Py.Ok ().
Proof.
  destruct (scheduled_call_is_served true
              (mret [GPUtil.MkGPU (1 # 4) (1 # 2) (Some 61)])
              (mret 12) (mret 34) (MkWorld [] []) (MkWorld [] [])
              (MkWorld [] []) 12 34 fresh)
    as (g & v & t & Hs & _ & Hok & _).
  - intros out e out' H. discriminate H.
  - intros out gpus out' H. injection H as <- _.
    repeat constructor; discriminate.
  - reflexivity.
  - reflexivity.
  - discriminate.
  - discriminate.
  - exact well_formed_fresh.
  - intros a. destruct a; vm_compute; discriminate.
  - exists g, v, t. split; [exact Hs | exact Hok].
Defined.

End EndToEnd.
